(** * process-manager: a tabbed viewer for child processes

    Shallow embedding of [src/utils.ts] and of the multiplexer module
    ([viewProcessesInTabs] and its handlers), followed by the properties of
    the specification that were checked against it.

    Conventions of the embedding
    - a [Buffer] is a list of bytes; a JavaScript string that comes out of
      [Buffer.toString] is a list of UTF-16 code units; literal strings of
      the program are [string]s;
    - JavaScript numbers that hold indices, lengths and cursors are [Z];
      [%] is [Z.rem], [&] is a bitwise and on the code unit;
    - the single mutable [state] object and what the handlers do to the
      terminal and to the child processes live in one [world] record that is
      threaded through a small state-and-exception monad. *)

From Stdlib Require Import ZArith NArith List Bool Lia.
From Stdlib.Strings Require Import String Ascii Byte.
From Stdlib Require Import DecimalString.
Import ListNotations.

Open Scope Z_scope.

(* ================================================================= *)
(** ** Buffers and strings *)

Definition Buffer := list byte.

(** [Buffer.prototype.equals]. *)
Fixpoint equals (a b : Buffer) : bool :=
  match a, b with
  | [], [] => true
  | x :: a', y :: b' => Byte.eqb x y && equals a' b'
  | _, _ => false
  end.

(** A decoded JavaScript string: its UTF-16 code units. *)
Definition jsstring := list N.

(** *** [Buffer.prototype.toString('utf-8')]

    The platform's decoder, written after the UTF-8 decoder of the WHATWG
    Encoding Standard: one U+FFFD for every maximal ill-formed subpart, the
    offending byte is looked at again as a lead byte. *)
Module Utf8.

Record decoder := mkDecoder {
  code_point : N;
  bytes_needed : N;
  lower : N;
  upper : N
}.

Definition idle : decoder := mkDecoder 0 0 0x80 0xBF.

Definition replacement : N := 0xFFFD.

Definition between (lo hi b : N) : bool := ((lo <=? b) && (b <=? hi))%N.

(** A byte met while no sequence is pending. *)
Definition lead (b : N) : list N * decoder :=
  if (b <=? 0x7F)%N then ([b], idle)
  else if between 0xC2 0xDF b then
    ([], mkDecoder (N.land b 0x1F) 1 0x80 0xBF)
  else if between 0xE0 0xEF b then
    ([], mkDecoder (N.land b 0xF) 2
                   (if (b =? 0xE0)%N then 0xA0 else 0x80)
                   (if (b =? 0xED)%N then 0x9F else 0xBF))
  else if between 0xF0 0xF4 b then
    ([], mkDecoder (N.land b 0x7) 3
                   (if (b =? 0xF0)%N then 0x90 else 0x80)
                   (if (b =? 0xF4)%N then 0x8F else 0xBF))
  else ([replacement], idle).

Definition feed (d : decoder) (b : N) : list N * decoder :=
  if (bytes_needed d =? 0)%N then lead b
  else if negb (between (lower d) (upper d) b) then
    let '(out, d') := lead b in (replacement :: out, d')
  else
    let cp := N.lor (N.shiftl (code_point d) 6) (N.land b 0x3F) in
    if (bytes_needed d =? 1)%N then ([cp], idle)
    else ([], mkDecoder cp (bytes_needed d - 1) 0x80 0xBF).

(** Code points of a byte sequence. *)
Fixpoint decode (d : decoder) (bs : Buffer) : list N :=
  match bs with
  | [] => if (bytes_needed d =? 0)%N then [] else [replacement]
  | b :: bs' =>
      let '(out, d') := feed d (Byte.to_N b) in out ++ decode d' bs'
  end.

(** UTF-16 code units of one code point. *)
Definition utf16 (c : N) : list N :=
  if (c <? 0x10000)%N then [c]
  else
    let v := (c - 0x10000)%N in
    [(0xD800 + N.shiftr v 10)%N; (0xDC00 + N.land v 0x3FF)%N].

Definition toString (data : Buffer) : jsstring :=
  flat_map utf16 (decode idle data).

End Utf8.

(** [String.prototype.charCodeAt]: [None] stands for NaN. *)
Definition charCodeAt (s : jsstring) (i : nat) : option N := nth_error s i.

(** [x & m] for [x] a char code or NaN (NaN converts to 0). *)
Definition bitand (x : option N) (m : N) : N :=
  match x with
  | Some c => N.land c m
  | None => 0%N
  end.

(* ================================================================= *)
(** ** utils.ts *)

Module keys.
Definition SIGINT : Buffer := [x03].
Definition left : Buffer := [x1b; x5b; x44].
Definition right : Buffer := [x1b; x5b; x43].
Definition k : Buffer := [x6b].
End keys.

(** The regular expression [/^\u001b\[M/]. *)
Definition matchMouseEvent (event : jsstring) : bool :=
  match event with
  | a :: b :: c :: _ => ((a =? 0x1b) && (b =? 0x5b) && (c =? 0x4d))%N
  | _ => false
  end.

(** [null] is [None]; the direction is [-1] or [1]. *)
Definition isScrollEvent (data : Buffer) : option Z :=
  let event := Utf8.toString data in
  if negb (matchMouseEvent event) then None
  else if negb (bitand (charCodeAt event 3) 96 =? 96)%N then None
  else Some (if negb (bitand (charCodeAt event 3) 1 =? 0)%N then -1 else 1).

Definition esc : string := String (ascii_of_nat 27) EmptyString.
Definition nl : string := String (ascii_of_nat 10) EmptyString.

(* ================================================================= *)
(** ** Arrays *)

Section Arrays.
Context {A : Type}.

Definition len (l : list A) : Z := Z.of_nat (List.length l).

(** [l[i]]: [None] is [undefined]. *)
Definition index (l : list A) (i : Z) : option A :=
  if i <? 0 then None else nth_error l (Z.to_nat i).

(** [l[i] = f (l[i])] for an element that exists. *)
Fixpoint updateAt (n : nat) (f : A -> A) (l : list A) : list A :=
  match l, n with
  | [], _ => []
  | x :: l', O => f x :: l'
  | x :: l', S n' => x :: updateAt n' f l'
  end.

(** [Array.prototype.slice(start, stop)]. *)
Definition slice (l : list A) (start stop : Z) : list A :=
  let k := if start <? 0 then Z.max (len l + start) 0
           else Z.min start (len l) in
  let final := if stop <? 0 then Z.max (len l + stop) 0
               else Z.min stop (len l) in
  firstn (Z.to_nat (Z.max (final - k) 0)) (skipn (Z.to_nat k) l).

(** [Array.prototype.splice(0, deleteCount)], the array that is left. *)
Definition splice0 (l : list A) (deleteCount : Z) : list A :=
  skipn (Z.to_nat (Z.min (Z.max deleteCount 0) (len l))) l.

End Arrays.

(* ================================================================= *)
(** ** The session: state, terminal and child processes *)

(** An entry of a history: a chunk read from a child, or a string the
    program wrote itself. *)
Inductive line :=
| Chunk (data : Buffer)
| Text (s : string).

Inductive signal := SIGTERM | SIGINT.

(** What the program sees and does of a child process: the signals it
    passed to [kill] (oldest first), the ['exit'] listeners it registered
    (each closure is the tab number it captured), and whether the handle has
    reported the exit of the child. *)
Record ChildProcess := mkChild {
  killed : list signal;
  exitListeners : list Z;
  exited : bool
}.

(** A child as [spawn] returns it. *)
Definition spawn : ChildProcess := mkChild [] [] false.

(** [p.kill(sig)], as the request the program makes. *)
Definition kill (sig : signal) (p : ChildProcess) : ChildProcess :=
  mkChild (killed p ++ [sig]) (exitListeners p) (exited p).

(** [p.on('exit', ...)] with a closure that captured the tab [t]. *)
Definition onExitListener (t : Z) (p : ChildProcess) : ChildProcess :=
  mkChild (killed p) (exitListeners p ++ [t]) (exited p).

(** The platform, when the child has exited. *)
Definition reportExit (p : ChildProcess) : ChildProcess :=
  mkChild (killed p) (exitListeners p) true.

(** The [state] object of [initialState]. [histories[0]] is the array of
    [trackMainHistory], [histories[i+1]] the array that [trackHistory]
    returned for [processes[i]]: every writer updates it here. *)
Record state := mkState {
  tab : Z;
  lines : Z;
  processes : list ChildProcess;
  histories : list (list line);
  cursor : Z
}.

Definition initialState : state := mkState 0 1 [] [] 0.

Inductive term_op :=
| Clear
| Write (l : line).

Inductive status :=
| Running
| Ended (code : Z)
| Crashed.

Record world := mkWorld {
  st : state;
  stdout : list term_op;
  restartListeners : nat;
  exitCode : option Z;
  session : status
}.

(** *** Computations on the world

    A handler either returns, throws (a [TypeError] on [undefined]) or
    leaves through [process.exit]; what it did before stays done. *)
Inductive abrupt := TypeError | ProcessExit.

Inductive outcome (A : Type) :=
| Ret (a : A)
| Abort (why : abrupt).
Arguments Ret {A} a.
Arguments Abort {A} why.

Definition M (A : Type) : Type := world -> outcome A * world.

Definition ret {A} (a : A) : M A := fun w => (Ret a, w).

Definition bind {A B} (m : M A) (f : A -> M B) : M B :=
  fun w =>
    match m w with
    | (Ret a, w') => f a w'
    | (Abort e, w') => (Abort e, w')
    end.

Declare Scope js_scope.
Delimit Scope js_scope with js.
Notation "x <- m ;; k" := (bind m (fun x => k))
  (at level 61, m at next level, right associativity) : js_scope.
Notation "m ;; k" := (bind m (fun _ => k))
  (at level 61, right associativity) : js_scope.
Open Scope js_scope.

Definition withState (s : state) (w : world) : world :=
  mkWorld s (stdout w) (restartListeners w) (exitCode w) (session w).

Definition withStdout (out : list term_op) (w : world) : world :=
  mkWorld (st w) out (restartListeners w) (exitCode w) (session w).

Definition withSession (x : status) (w : world) : world :=
  mkWorld (st w) (stdout w) (restartListeners w) (exitCode w) x.

Definition throw {A} : M A := fun w => (Abort TypeError, w).

Definition getState : M state := fun w => (Ret (st w), w).

Definition modify (f : state -> state) : M unit :=
  fun w => (Ret tt, withState (f (st w)) w).

Definition setTab (t : Z) : M unit :=
  modify (fun s => mkState t (lines s) (processes s) (histories s) (cursor s)).

Definition setCursor (c : Z) : M unit :=
  modify (fun s => mkState (tab s) (lines s) (processes s) (histories s) c).

Definition setProcesses (ps : list ChildProcess) : M unit :=
  modify (fun s => mkState (tab s) (lines s) ps (histories s) (cursor s)).

Definition setHistories (hs : list (list line)) : M unit :=
  modify (fun s => mkState (tab s) (lines s) (processes s) hs (cursor s)).

Definition write (o : term_op) : M unit :=
  fun w => (Ret tt, withStdout (stdout w ++ [o]) w).

Definition addRestartListener : M unit :=
  fun w =>
    (Ret tt, mkWorld (st w) (stdout w) (S (restartListeners w))
                     (exitCode w) (session w)).

Definition getExitCode : M (option Z) := fun w => (Ret (exitCode w), w).

(** [process.exit(code)]. *)
Definition processExit {A} (code : Z) : M A :=
  fun w => (Abort ProcessExit, withSession (Ended code) w).

Fixpoint forEach {A} (l : list A) (f : A -> M unit) : M unit :=
  match l with
  | [] => ret tt
  | x :: l' => f x ;; forEach l' f
  end.

Definition when (b : bool) (m : M unit) : M unit := if b then m else ret tt.

(** [enableMouseEvents] and the function it returns, [disableMouseEvents]
    (utils.ts). *)
Definition disableMouseEvents : M unit :=
  write (Write (Text (esc ++ "[?1005l")%string)) ;;
  write (Write (Text (esc ++ "[?1003l")%string)).

Definition enableMouseEvents : M unit :=
  write (Write (Text (esc ++ "[?1005h")%string)) ;;
  write (Write (Text (esc ++ "[?1003h")%string)).

(** [x.length] on a value that may be [undefined]. *)
Definition lengthOf {A} (x : option (list A)) : M Z :=
  match x with
  | Some l => ret (len l)
  | None => throw
  end.

(** [h.push(...new)] on the history of tab [t]. *)
Definition push (t : Z) (new : list line) : M unit :=
  s <- getState ;;
  match index (histories s) t with
  | Some _ =>
      setHistories (updateAt (Z.to_nat t) (fun h => h ++ new) (histories s))
  | None => throw
  end.

(* ================================================================= *)
(** ** The multiplexer module *)

(** Template-literal conversion of an integer. *)
Definition numToString (z : Z) : string :=
  NilZero.string_of_int (Z.to_int z).

(** The number of lines of a child's output kept by the session
    ([trackHistory(p, 1000)]; the parameter itself defaults to 1) and the
    height of the content pane ([dimensions[1]]). *)
Definition defaultRetention : Z := 1.
Definition sessionRetention : Z := 1000.
Definition sessionLines : Z := 20.

Definition tabLabel (tab : Z) (index : nat) : string :=
  let selected := if Z.of_nat index =? tab then "[*]"%string else "[ ]"%string in
  if Nat.eqb index 0 then ("main " ++ selected ++ " ")%string
  else (" process " ++ numToString (Z.of_nat index) ++ " " ++ selected ++ " ")%string.

Definition instructions : string :=
  ("Use the left and right arrow keys to navigate between processes" ++ nl)%string.

(** The lines [render] writes after clearing the screen. [None] when
    [histories[tab]] is [undefined]. *)
Definition view (s : state) : option (list line) :=
  let tabs :=
    String.concat "|"%string
      (map (tabLabel (tab s)) (seq 0 (List.length (histories s)))) in
  let header :=
    [Text instructions; Text nl; Text (tabs ++ nl)%string; Text nl] in
  match index (histories s) (tab s) with
  | Some current =>
      let endLineIndex := Z.min (cursor s + lines s) (len current) in
      Some (header ++ slice current (cursor s) endLineIndex)
  | None => None
  end.

Definition frame (v : list line) : list term_op := Clear :: map Write v.

Definition render : M unit :=
  s <- getState ;;
  match view s with
  | Some v => forEach (frame v) write
  | None => throw
  end.

(** The ['data'] listener that [updateActiveTab] puts on the output of
    [processes[i]]. *)
Definition updateActiveTab (i : nat) : M unit :=
  s <- getState ;;
  if Z.of_nat i + 1 =? tab s then
    n <- lengthOf (index (histories s) (Z.of_nat i + 1)) ;;
    let maxCursor := Z.max 0 (n - lines s) in
    active <- (if cursor s >? maxCursor - 2
               then setCursor maxCursor ;; ret true
               else ret false) ;;
    when active render
  else ret tt.

(** [print] of [trackMainHistory]. *)
Definition print (data : line) : M unit :=
  push 0 [data] ;; render.

(** The ['data'] listener of [trackHistory], on the array itself. *)
Definition trackHistory (retention : Z) (history : list line) (data : line)
  : list line :=
  let history := history ++ [data] in
  if len history >? retention
  then splice0 history (len history - retention)
  else history.

(** The same listener, on the history of [processes[i]]. *)
Definition trackHistoryOf (retention : Z) (i : nat) (data : line) : M unit :=
  s <- getState ;;
  setHistories
    (updateAt (S i) (fun h => trackHistory retention h data) (histories s)).

(** The body of the [if] is empty. *)
Definition restartHandler (data : Buffer) : M unit :=
  if equals data keys.k then ret tt else ret tt.

Definition exitNotice (t : Z) : string :=
  ("Process '" ++ numToString t ++ "' exited" ++ nl)%string.

Definition restartPrompt (t : Z) : string :=
  ("Press 'K' to restart process '" ++ numToString t ++ "'" ++ nl)%string.

Definition receivedSigint : string := ("Received SIGINT" ++ nl)%string.

(** The ['exit'] listener that [terminateHandler] registers; [t] is the
    tab it captured, and the history it pushes to is the one of that tab. *)
Definition exitObserver (t : Z) : M unit :=
  print (Text (exitNotice t)) ;;
  push t [Text nl; Text (restartPrompt t)] ;;
  addRestartListener ;;
  s <- getState ;;
  when (tab s =? t) render.

(** On the main tab [process.emit('beforeExit')] runs the one listener
    that [viewProcessesInTabs] registered, [disableMouseEvents]; then every
    child is killed and [process.exit] leaves. On the tab of a child the
    observer is registered first, then the note is pushed and drawn, then
    the child gets SIGINT. *)
Definition terminateHandler (data : Buffer) : M unit :=
  if equals data keys.SIGINT then
    s <- getState ;;
    let t := tab s in
    when (t =? 0)
      (code <- getExitCode ;;
       let exitCode :=
         match code with
         | Some c => if c =? 0 then 0 else c
         | None => 0
         end in
       disableMouseEvents ;;
       setProcesses (map (kill SIGTERM) (processes s)) ;;
       processExit exitCode) ;;
    when (t >? 0)
      (match index (processes s) (t - 1) with
       | Some _ =>
           setProcesses
             (updateAt (Z.to_nat (t - 1)) (onExitListener t) (processes s))
       | None => throw
       end ;;
       push t [Text nl; Text receivedSigint] ;;
       render ;;
       s' <- getState ;;
       setProcesses (updateAt (Z.to_nat (t - 1)) (kill SIGINT) (processes s')))
  else ret tt.

(** The left branch reads [histories[tab]] with the [tab] that was
    destructured on entry; the right branch reads
    [state.histories[state.tab]]. *)
Definition arrowHandler (data : Buffer) : M unit :=
  s <- getState ;;
  let t := tab s in
  let hs := histories s in
  let lines := lines s in
  when (equals data keys.left)
    (setTab (Z.rem (t + len hs - 1) (len hs)) ;;
     n <- lengthOf (index hs t) ;;
     let maxCursor := Z.max 0 (n - lines) in
     setCursor maxCursor) ;;
  when (equals data keys.right)
    (setTab (Z.rem (t + 1) (len hs)) ;;
     s' <- getState ;;
     n <- lengthOf (index (histories s') (tab s')) ;;
     let maxCursor := Z.max 0 (n - lines) in
     setCursor maxCursor) ;;
  render.

(** [cursor] is the value destructured on entry; [state.cursor] is read
    again for the comparison that decides on the redraw. *)
Definition scrollHandler (data : Buffer) : M unit :=
  s <- getState ;;
  let direction := isScrollEvent data in
  match direction with
  | Some d =>
      let current := index (histories s) (tab s) in
      when (d =? -1) (setCursor (Z.max 0 (cursor s - 1))) ;;
      when (d =? 1)
        (n <- lengthOf current ;;
         let maxCursor := Z.max 0 (n - lines s) in
         setCursor (Z.min maxCursor (cursor s + 1))) ;;
      s' <- getState ;;
      when (negb (cursor s' =? cursor s)) render
  | None => ret tt
  end.

(* ================================================================= *)
(** ** The event loop *)

(** What the platform delivers: a chunk typed on the terminal, a chunk
    written by [processes[i]], the exit of [processes[i]]. *)
Inductive event :=
| StdinData (data : Buffer)
| ChildData (i : nat) (data : Buffer)
| ChildExit (i : nat).

(** The listeners of one event, in the order they were registered. *)
Definition dispatch (e : event) : M unit :=
  match e with
  | StdinData data =>
      terminateHandler data ;;
      arrowHandler data ;;
      scrollHandler data ;;
      w <- (fun w => (Ret (restartListeners w), w)) ;;
      forEach (repeat data w) restartHandler
  | ChildData i data =>
      trackHistoryOf sessionRetention i (Chunk data) ;;
      updateActiveTab i
  | ChildExit i =>
      s <- getState ;;
      setProcesses (updateAt i reportExit (processes s)) ;;
      match nth_error (processes s) i with
      | Some p => forEach (exitListeners p) exitObserver
      | None => ret tt
      end
  end.

(** An event the platform can deliver in this world. *)
Definition deliverable (e : event) (w : world) : bool :=
  match session w, e with
  | Running, StdinData _ => true
  | Running, ChildData i _ => Nat.ltb i (List.length (processes (st w)))
  | Running, ChildExit i =>
      match nth_error (processes (st w)) i with
      | Some p => negb (exited p)
      | None => false
      end
  | _, _ => false
  end.

Definition crash (w : world) : world := withSession Crashed w.

Definition handle (w : world) (e : event) : world :=
  if deliverable e w then
    match dispatch e w with
    | (Ret _, w') => w'
    | (Abort ProcessExit, w') => w'
    | (Abort TypeError, w') => crash w'
    end
  else w.

Definition run (w : world) (es : list event) : world := fold_left handle es w.

(** [viewProcessesInTabs(...commands)] for [n] commands: the world when it
    returns. *)
(** The program before [viewProcessesInTabs]; [setup] is the world once
    the state is configured and the listeners are in place. *)
Definition boot : world := mkWorld initialState [] 0 None Running.

Definition setup (n : nat) : world :=
  snd ((enableMouseEvents ;;
        modify (fun s => mkState (tab s) sessionLines (repeat spawn n)
                                 (repeat [] (S n)) (cursor s)))
         boot).

Definition viewProcessesInTabs (n : nat) : world :=
  snd ((print (Text ("Initialized!" ++ nl)%string) ;; render) (setup n)).

Definition reachable (w : world) : Prop :=
  exists n es, w = run (viewProcessesInTabs n) es.

(** *** Vocabulary of the specification *)

(** The decoding of a mouse report in the words of the specification: bit
    0x01 of the button character set means scroll-down, direction +1; clear
    means scroll-up, direction -1. *)
Definition scrollDecodingAsStated (data : Buffer) : Prop :=
  let c := charCodeAt (Utf8.toString data) 3 in
  (bitand c 96 <> 96%N -> isScrollEvent data = None) /\
  (bitand c 96 = 96%N ->
     (bitand c 1 <> 0%N -> isScrollEvent data = Some 1) /\
     (bitand c 1 = 0%N -> isScrollEvent data = Some (-1))).

(** The largest cursor of a history: its tail. *)
Definition maxCursorOf (h : list line) (lines : Z) : Z :=
  Z.max 0 (len h - lines).

(** The largest cursor of the active tab. *)
Definition tailCursor (s : state) : option Z :=
  match index (histories s) (tab s) with
  | Some h => Some (maxCursorOf h (lines s))
  | None => None
  end.

(** The active tab names one of the histories. *)
Definition validTab (s : state) : Prop :=
  0 <= tab s < len (histories s).

(** The computation wrote exactly one frame, the view of the state it
    left. *)
Definition redrawn (w w' : world) : Prop :=
  exists v, view (st w') = Some v /\ stdout w' = stdout w ++ frame v.

Definition silent (w w' : world) : Prop := stdout w' = stdout w.

(** What the session keeps true of its state: the active tab is one of the
    tabs, there is one history for the main tab and one per process, and
    the exit observers of [processes[i]] captured the tab [i + 1]. *)
Definition wellFormed (s : state) : Prop :=
  validTab s /\
  len (histories s) = len (processes s) + 1 /\
  forall i p, nth_error (processes s) i = Some p ->
              Forall (eq (Z.of_nat i + 1)) (exitListeners p).

(** A computation that keeps the state well formed and does not throw. *)
Definition safe {A} (m : M A) : Prop :=
  forall w, wellFormed (st w) -> session w <> Crashed ->
    wellFormed (st (snd (m w))) /\
    fst (m w) <> Abort TypeError /\
    session (snd (m w)) <> Crashed.

(** Auto-follow in the words of the specification: output on the active
    tab moves the cursor to the new tail and redraws when the cursor was
    within 2 lines of the tail, and draws nothing otherwise. *)
Definition autoFollowAsStated (w : world) (i : nat) (data : Buffer) : Prop :=
  forall t t' w',
    Z.of_nat i + 1 = tab (st w) ->
    tailCursor (st w) = Some t ->
    dispatch (ChildData i data) w = (Ret tt, w') ->
    tailCursor (st w') = Some t' ->
    if Z.abs (t - cursor (st w)) <=? 2
    then cursor (st w') = t' /\ redrawn w w'
    else silent w w'.

(** The bound on the history of a child in the words of the
    specification: in a session the history of no child tab ever holds more
    than the retention. *)
Definition historyBoundAsStated (w : world) : Prop :=
  forall i h, index (histories (st w)) (Z.of_nat i + 1) = Some h ->
              len h <= sessionRetention.

(** Scrolling in the words of the specification: handling a chunk from the
    terminal writes to the screen if and only if the cursor changed. *)
Definition scrollRedrawAsStated (w : world) (data : Buffer) : Prop :=
  let w' := handle w (StdinData data) in
  stdout w' <> stdout w <-> cursor (st w') <> cursor (st w).

(** *** Vocabulary of the further properties *)

(** The four lines that [render] writes above the content. *)
Definition header (s : state) : list line :=
  let tabs :=
    String.concat "|"%string
      (map (tabLabel (tab s)) (seq 0 (List.length (histories s)))) in
  [Text instructions; Text nl; Text (tabs ++ nl)%string; Text nl].

(** A multi-byte sequence that the decoder has begun can only end in a
    code point of 0x80 or more: what is accumulated, or the range left to
    the next byte, already excludes the smaller ones. *)
Definition pendingAbove (d : Utf8.decoder) : bool :=
  ((0x80 <=? Utf8.lower d) && (Utf8.upper d <=? 0xBF) &&
   (((Utf8.bytes_needed d =? 1) && (2 <=? Utf8.code_point d)) ||
    ((Utf8.bytes_needed d =? 2) &&
       ((1 <=? Utf8.code_point d) || (Utf8.lower d =? 0xA0))) ||
    ((Utf8.bytes_needed d =? 3) &&
       ((1 <=? Utf8.code_point d) || (Utf8.lower d =? 0x90)))))%N.

(** A computation that leaves a component of the state as it found it,
    whether it returns or not. *)
Definition keeps {A B} (proj : state -> B) (m : M A) : Prop :=
  forall w, proj (st (snd (m w))) = proj (st w).

(** From one state to a later one of the session: a cursor that was not
    negative is not negative, and the main history has only grown at its
    end. *)
Definition evolves (s s' : state) : Prop :=
  (0 <= cursor s -> 0 <= cursor s') /\
  (forall m, index (histories s) 0 = Some m ->
             exists more, index (histories s') 0 = Some (m ++ more)).

Definition advances {A} (m : M A) : Prop :=
  forall w, wellFormed (st w) -> session w <> Crashed ->
            evolves (st w) (st (snd (m w))).

(** *** Sample sessions *)

(** One tab of three lines, a viewport of two, the cursor at the tail. *)
Definition threeLines : state :=
  mkState 0 2 [] [[Text "a"; Text "b"; Text "c"]] 1.

Definition wheel (button : byte) : Buffer := [x1b; x5b; x4d; button; x21; x21].

(** [k] chunks of output from [processes[i]]. *)
Definition outputs (i k : nat) : list event := repeat (ChildData i [x61]) k.

(** One command; 30 chunks of output arrive while the main tab is shown;
    then the right arrow shows the child, at its tail. *)
Definition watchingChild : world :=
  run (viewProcessesInTabs 1) (outputs 0 30 ++ [StdinData keys.right]).

(** The same, scrolled one line up. *)
Definition scrolledBack : world :=
  handle watchingChild (StdinData (wheel x61)).

(** One command; its history is filled to the retention while the main tab
    is shown; then the right arrow and the interrupt key on its tab. *)
Definition fullAndInterrupted : world :=
  run (viewProcessesInTabs 1)
      (outputs 0 1000 ++ [StdinData keys.right; StdinData keys.SIGINT]).

(** Decides the comparisons of a handler with the keys once the chunk is
    known. *)
Ltac compare_keys :=
  repeat match goal with
         | |- context [equals ?a ?b] =>
             let r := eval vm_compute in (equals a b) in
             change (equals a b) with r
         end;
  cbv iota beta.

(* ================================================================= *)
(** * Properties *)

(** ** Buffers and arrays *)

Lemma equals_eq (a b : Buffer) : equals a b = true <-> a = b.
Proof.
  revert b; induction a as [|x a IH]; intros [|y b]; simpl;
    try (split; congruence).
  rewrite andb_true_iff, IH. split.
  - intros [E ->]. apply Byte.byte_dec_bl in E. now subst.
  - intros E; injection E as -> ->. split; [now apply Byte.byte_dec_lb | easy].
Qed.

Section ArrayFacts.
Context {A : Type}.
Implicit Types (l : list A) (f : A -> A).

Lemma len_nonneg l : 0 <= len l.
Proof. unfold len; lia. Qed.

Lemma len_app l l' : len (l ++ l') = len l + len l'.
Proof. unfold len; rewrite length_app; lia. Qed.

Lemma length_updateAt n f l : List.length (updateAt n f l) = List.length l.
Proof.
  revert n; induction l as [|x l IH]; intros [|n]; simpl; auto.
Qed.

Lemma len_updateAt n f l : len (updateAt n f l) = len l.
Proof. unfold len; now rewrite length_updateAt. Qed.

Lemma nth_error_updateAt_same n f l x :
  nth_error l n = Some x -> nth_error (updateAt n f l) n = Some (f x).
Proof.
  revert n; induction l as [|y l IH]; intros [|n]; simpl; try congruence.
  apply IH.
Qed.

Lemma nth_error_updateAt_other n m f l :
  n <> m -> nth_error (updateAt n f l) m = nth_error l m.
Proof.
  revert n m; induction l as [|y l IH]; intros [|n] [|m] H; simpl; auto;
    try congruence.
Qed.

Lemma index_Some_range l i x : index l i = Some x -> 0 <= i < len l.
Proof.
  unfold index, len. destruct (Z.ltb_spec i 0); [discriminate|].
  intros E. assert (Hn : nth_error l (Z.to_nat i) <> None) by congruence.
  apply nth_error_Some in Hn. lia.
Qed.

Lemma index_in_range l i : 0 <= i < len l -> exists x, index l i = Some x.
Proof.
  unfold index, len. intros H. destruct (Z.ltb_spec i 0); [lia|].
  destruct (nth_error l (Z.to_nat i)) eqn:E; [eauto|].
  apply nth_error_None in E. lia.
Qed.

Lemma index_updateAt_same l i f x :
  index l i = Some x -> index (updateAt (Z.to_nat i) f l) i = Some (f x).
Proof.
  unfold index. destruct (i <? 0); [discriminate|].
  apply nth_error_updateAt_same.
Qed.

Lemma index_updateAt_other l i j f :
  0 <= i -> i <> j -> index (updateAt (Z.to_nat i) f l) j = index l j.
Proof.
  unfold index. intros Hi Hij. destruct (Z.ltb_spec j 0); [reflexivity|].
  apply nth_error_updateAt_other. lia.
Qed.

End ArrayFacts.

(** ** The scroll decoder *)

Lemma toString_mouse_prefix (rest : Buffer) :
  Utf8.toString (x1b :: x5b :: x4d :: rest) =
  0x1b%N :: 0x5b%N :: 0x4d%N :: Utf8.toString rest.
Proof. reflexivity. Qed.

(** The fourth character of a mouse report is the first character decoded
    from what follows the prefix. *)
Lemma charCodeAt_mouse_report (rest : Buffer) :
  charCodeAt (Utf8.toString (x1b :: x5b :: x4d :: rest)) 3 =
  hd_error (Utf8.toString rest).
Proof.
  rewrite toString_mouse_prefix. unfold charCodeAt; simpl.
  now destruct (Utf8.toString rest).
Qed.

(** A button byte below 0x80 is its own character. *)
Lemma charCodeAt_ascii_button (b : byte) (rest : Buffer) :
  (Byte.to_N b <= 0x7F)%N ->
  charCodeAt (Utf8.toString (x1b :: x5b :: x4d :: b :: rest)) 3 =
  Some (Byte.to_N b).
Proof.
  intros H. rewrite charCodeAt_mouse_report.
  unfold Utf8.toString. simpl Utf8.decode.
  unfold Utf8.feed, Utf8.lead. simpl Utf8.bytes_needed. simpl N.eqb.
  apply N.leb_le in H. cbv iota. rewrite H. simpl.
  unfold Utf8.utf16.
  replace (Byte.to_N b <? 0x10000)%N with true; [reflexivity|].
  symmetry. apply N.ltb_lt. apply N.leb_le in H. lia.
Qed.

Example isScrollEvent_wheel_96 :
  isScrollEvent [x1b; x5b; x4d; x60; x21; x21] = Some 1.
Proof. reflexivity. Qed.

Example isScrollEvent_wheel_97 :
  isScrollEvent [x1b; x5b; x4d; x61; x21; x21] = Some (-1).
Proof. reflexivity. Qed.

Example isScrollEvent_click :
  isScrollEvent [x1b; x5b; x4d; x20; x21; x21] = None.
Proof. reflexivity. Qed.

Example isScrollEvent_short : isScrollEvent [x1b; x5b; x4d] = None.
Proof. reflexivity. Qed.

Example isScrollEvent_keys :
  isScrollEvent keys.left = None /\ isScrollEvent keys.right = None /\
  isScrollEvent keys.SIGINT = None /\ isScrollEvent keys.k = None.
Proof. repeat split. Qed.

(** The decoder only ever answers [null], [-1] or [1]. *)
Lemma isScrollEvent_direction (data : Buffer) (d : Z) :
  isScrollEvent data = Some d -> d = -1 \/ d = 1.
Proof.
  unfold isScrollEvent.
  destruct (negb _); [discriminate|].
  destruct (negb _); [discriminate|].
  destruct (negb _); intros [= <-]; auto.
Qed.

(** C1, as the code has it. For every chunk that begins with ESC [ M, with
    [c] the char code at index 3 of the decoded chunk (NaN counts as 0): the
    decoder answers [null] unless both bits of 0x60 are set in [c];
    otherwise it answers -1 (the direction that moves the cursor up) when
    bit 0x01 of [c] is set, and +1 (the direction that moves it down) when
    that bit is clear. *)
Theorem isScrollEvent_mouse_report (rest : Buffer) :
  let data := x1b :: x5b :: x4d :: rest in
  let c := charCodeAt (Utf8.toString data) 3 in
  isScrollEvent data =
  if (bitand c 96 =? 96)%N
  then Some (if (bitand c 1 =? 0)%N then 1 else -1)
  else None.
Proof.
  intros data c. unfold isScrollEvent. fold c.
  unfold data at 1. rewrite toString_mouse_prefix.
  change (matchMouseEvent _) with true. cbv beta iota delta [negb].
  destruct (bitand c 96 =? 96)%N; [|reflexivity].
  now destruct (bitand c 1 =? 0)%N.
Qed.

(** C1 as the specification words it fails on the wheel report whose button
    byte is 0x61: bits 0x60 and bit 0x01 are set, and the decoder answers
    -1, not +1. *)
Lemma isScrollEvent_bit_set_is_minus_one :
  ~ scrollDecodingAsStated [x1b; x5b; x4d; x61].
Proof.
  unfold scrollDecodingAsStated. intros [_ H].
  destruct (H eq_refl) as [H1 _].
  assert (E : isScrollEvent [x1b; x5b; x4d; x61] = Some 1)
    by (apply H1; vm_compute; discriminate).
  vm_compute in E. discriminate.
Qed.

(** ** The history of a child *)

(** The last [r] elements of a list. *)
Lemma skipn_last_app {A} (r : nat) (a b : list A) :
  skipn (List.length (skipn (List.length a - r) a ++ b) - r)
        (skipn (List.length a - r) a ++ b) =
  skipn (List.length (a ++ b) - r) (a ++ b).
Proof.
  set (k := (List.length a - r)%nat).
  assert (Hk : (k <= List.length a)%nat) by (unfold k; lia).
  replace (skipn k a ++ b) with (skipn k (a ++ b)).
  2:{ rewrite skipn_app. replace (k - List.length a)%nat with O by lia.
      reflexivity. }
  rewrite skipn_skipn, length_skipn. f_equal.
  rewrite length_app. unfold k. lia.
Qed.

(** One chunk more: the array is pushed to and then cut from the front down
    to [retention] entries. *)
Lemma trackHistory_step (retention : Z) (h : list line) (d : line) :
  0 <= retention ->
  trackHistory retention h d =
  skipn (List.length (h ++ [d]) - Z.to_nat retention) (h ++ [d]).
Proof.
  intros HR. unfold trackHistory, splice0, len.
  destruct (Z.gtb_spec (Z.of_nat (List.length (h ++ [d]))) retention).
  - f_equal. lia.
  - replace (List.length (h ++ [d]) - Z.to_nat retention)%nat with O by lia.
    reflexivity.
Qed.

Lemma trackHistory_fold (retention : Z) (ls h : list line) :
  0 <= retention ->
  h = skipn (List.length h - Z.to_nat retention) h ->
  fold_left (trackHistory retention) ls h =
  skipn (List.length (h ++ ls) - Z.to_nat retention) (h ++ ls).
Proof.
  intros HR. revert h. induction ls as [|d ls IH]; intros h Hh.
  - simpl. now rewrite app_nil_r.
  - simpl. rewrite IH.
    + rewrite trackHistory_step by assumption.
      rewrite skipn_last_app. now rewrite <- app_assoc.
    + rewrite trackHistory_step by assumption.
      rewrite skipn_skipn, length_skipn. f_equal. lia.
Qed.

(** The listener of [trackHistory] on an array of its own. A history that
    it fills from the output of a child,
    with a retention [R] that is not negative (1000 in the session), never
    holds more than [R] entries; a chunk that arrives removes from the front
    exactly the entries in excess of [R]; and after any sequence of chunks
    the history is the last [R] of them, in the order they arrived. *)
Theorem trackHistory_retention (R : Z) (chunks : list line) :
  0 <= R ->
  let history := fold_left (trackHistory R) chunks [] in
  len history <= R /\
  history = skipn (List.length chunks - Z.to_nat R) chunks /\
  (forall h d,
     trackHistory R h d = skipn (Z.to_nat (len h + 1 - R)) (h ++ [d])).
Proof.
  intros HR history.
  assert (E : history = skipn (List.length chunks - Z.to_nat R) chunks).
  { unfold history. rewrite trackHistory_fold; auto. }
  split; [|split].
  - rewrite E. unfold len. rewrite length_skipn. lia.
  - exact E.
  - intros h d. rewrite trackHistory_step by assumption. f_equal.
    unfold len. rewrite length_app. simpl. lia.
Qed.

Lemma trackHistory_retention_witness :
  0 <= 2 /\
  fold_left (trackHistory 2) [Text "a"; Text "b"; Text "c"] [] =
  [Text "b"; Text "c"].
Proof.
  split; [lia|].
  exact (proj1 (proj2 (trackHistory_retention 2
                         [Text "a"; Text "b"; Text "c"] ltac:(lia)))).
Defined.

(** ** Rendering *)

Lemma forEach_write (ops : list term_op) (w : world) :
  forEach ops write w = (Ret tt, withStdout (stdout w ++ ops) w).
Proof.
  revert w; induction ops as [|o ops IH]; intros w; simpl.
  - unfold ret, withStdout. rewrite app_nil_r. now destruct w.
  - unfold bind. simpl. rewrite IH. unfold withStdout; simpl.
    now rewrite <- app_assoc.
Qed.

Lemma view_defined (s : state) (h : list line) :
  index (histories s) (tab s) = Some h -> exists v, view s = Some v.
Proof. intros H. unfold view. rewrite H. eauto. Qed.

Lemma view_undefined (s : state) :
  index (histories s) (tab s) = None -> view s = None.
Proof. intros H. unfold view. now rewrite H. Qed.

Lemma render_ok (w : world) (v : list line) :
  view (st w) = Some v ->
  render w = (Ret tt, withStdout (stdout w ++ frame v) w).
Proof.
  intros H. unfold render, bind, getState. rewrite H. apply forEach_write.
Qed.

Lemma withState_twice (s s0 : state) (w : world) :
  withState s (withState s0 w) = withState s w.
Proof. reflexivity. Qed.

Lemma render_withState (w : world) (s : state) (v : list line) :
  view s = Some v ->
  render (withState s w) =
  (Ret tt, withStdout (stdout w ++ frame v) (withState s w)).
Proof. intros H. now rewrite (render_ok (withState s w) v H). Qed.

Lemma render_throws (w : world) :
  view (st w) = None -> render w = (Abort TypeError, w).
Proof. intros H. unfold render, bind, getState. now rewrite H. Qed.

(** ** Navigation between tabs *)

(** What the left arrow does: the tab before, and the tail of the history
    of the tab that was active when the key arrived. *)
Lemma arrowHandler_left (w : world) (h : list line) :
  index (histories (st w)) (tab (st w)) = Some h ->
  let s := st w in
  let n := len (histories s) in
  let s' := mkState (Z.rem (tab s + n - 1) n) (lines s) (processes s)
                    (histories s) (maxCursorOf h (lines s)) in
  exists v, view s' = Some v /\
    arrowHandler keys.left w =
    (Ret tt, withStdout (stdout w ++ frame v) (withState s' w)).
Proof.
  intros H s n s'. pose proof (index_Some_range _ _ _ H) as Ht.
  assert (Hr : 0 <= Z.rem (tab s + n - 1) n < n)
    by (apply Z.rem_bound_pos; unfold n, s; lia).
  destruct (index_in_range (histories s) _ Hr) as [h' Hh'].
  destruct (view_defined s' h' Hh') as [v Hv]. exists v; split; [exact Hv|].
  unfold arrowHandler, bind, getState, when. compare_keys.
  unfold setTab, setCursor, modify, lengthOf. rewrite H. unfold ret.
  cbn [st withState tab lines processes histories cursor].
  fold s n. rewrite withState_twice. exact (render_withState w s' v Hv).
Qed.

(** What the right arrow does: the tab after, and the tail of its
    history. *)
Lemma arrowHandler_right (w : world) :
  validTab (st w) ->
  let s := st w in
  let n := len (histories s) in
  exists h' v,
    index (histories s) (Z.rem (tab s + 1) n) = Some h' /\
    let s' := mkState (Z.rem (tab s + 1) n) (lines s) (processes s)
                      (histories s) (maxCursorOf h' (lines s)) in
    view s' = Some v /\
    arrowHandler keys.right w =
    (Ret tt, withStdout (stdout w ++ frame v) (withState s' w)).
Proof.
  intros Ht s n. unfold validTab in Ht.
  assert (Hr : 0 <= Z.rem (tab s + 1) n < n)
    by (apply Z.rem_bound_pos; unfold n, s; lia).
  destruct (index_in_range (histories s) _ Hr) as [h' Hh'].
  exists h'.
  destruct (view_defined
              (mkState (Z.rem (tab s + 1) n) (lines s) (processes s)
                       (histories s) (maxCursorOf h' (lines s))) h' Hh')
    as [v Hv].
  exists v; split; [exact Hh'|]. split; [exact Hv|].
  unfold arrowHandler, bind, getState, when. compare_keys.
  unfold setTab, setCursor, modify, lengthOf, ret.
  cbn [st withState tab lines processes histories cursor].
  fold s n. rewrite Hh'.
  cbn [st withState tab lines processes histories cursor].
  rewrite withState_twice. exact (render_withState w _ v Hv).
Qed.

Lemma rem_left_right (t n : Z) :
  0 <= t < n -> Z.rem (Z.rem (t + n - 1) n + 1) n = t.
Proof.
  intros H. destruct (Z.eq_dec t 0) as [->|Ht].
  - replace (0 + n - 1) with (n - 1) by lia.
    rewrite (Z.rem_small (n - 1) n) by lia.
    replace (n - 1 + 1) with n by lia. apply Z.rem_same. lia.
  - replace (t + n - 1) with ((t - 1) + 1 * n) by lia.
    rewrite Z.rem_add by nia. rewrite (Z.rem_small (t - 1) n) by lia.
    replace (t - 1 + 1) with t by lia. apply Z.rem_small. lia.
Qed.

Lemma rem_right_left (t n : Z) :
  0 <= t < n -> Z.rem (Z.rem (t + 1) n + n - 1) n = t.
Proof.
  intros H. destruct (Z.eq_dec (t + 1) n) as [E|Ht].
  - rewrite E, Z.rem_same by lia.
    replace (0 + n - 1) with (n - 1) by lia. rewrite Z.rem_small; lia.
  - rewrite (Z.rem_small (t + 1) n) by lia.
    replace (t + 1 + n - 1) with (t + 1 * n) by lia.
    rewrite Z.rem_add by nia. apply Z.rem_small. lia.
Qed.

(** On a valid tab the remainders of the handler are the tab before and the
    tab after, counted modulo the number of tabs. *)
Lemma rem_left_mod (t n : Z) :
  0 <= t < n -> Z.rem (t + n - 1) n = (t - 1) mod n.
Proof.
  intros H. rewrite Z.rem_mod_nonneg by lia.
  replace (t + n - 1) with (t - 1 + 1 * n) by lia. apply Z.mod_add. lia.
Qed.

Lemma rem_right_mod (t n : Z) :
  0 <= t < n -> Z.rem (t + 1) n = (t + 1) mod n.
Proof. intros H. apply Z.rem_mod_nonneg; lia. Qed.

(** C5. From a state whose active tab is one of the tabs, the left arrow
    followed by the right arrow, and the right arrow followed by the left
    arrow, both return normally and leave the active tab where it was. *)
Theorem navigate_there_and_back (w : world) :
  validTab (st w) ->
  (exists w1 w2,
     arrowHandler keys.left w = (Ret tt, w1) /\
     arrowHandler keys.right w1 = (Ret tt, w2) /\
     tab (st w2) = tab (st w)) /\
  (exists w1 w2,
     arrowHandler keys.right w = (Ret tt, w1) /\
     arrowHandler keys.left w1 = (Ret tt, w2) /\
     tab (st w2) = tab (st w)).
Proof.
  intros Ht. pose proof Ht as Hv. unfold validTab in Hv.
  destruct (index_in_range _ _ Hv) as [h Hh]. split.
  - destruct (arrowHandler_left w h Hh) as (v & _ & E).
    match type of E with _ = (_, ?x) => set (w1 := x) in * end.
    assert (Hr : validTab (st w1))
      by (unfold validTab, w1; cbn [st tab histories withState withStdout];
          apply Z.rem_bound_pos; lia).
    destruct (arrowHandler_right w1 Hr) as (h' & v' & _ & _ & E').
    match type of E' with _ = (_, ?x) => exists w1, x end.
    split; [exact E|]. split; [exact E'|].
    unfold w1. cbn [st tab histories withState withStdout].
    now apply rem_left_right.
  - destruct (arrowHandler_right w Ht) as (h' & v & Hh' & _ & E).
    match type of E with _ = (_, ?x) => set (w1 := x) in * end.
    destruct (arrowHandler_left w1 h' Hh') as (v' & _ & E').
    match type of E' with _ = (_, ?x) => exists w1, x end.
    split; [exact E|]. split; [exact E'|].
    unfold w1. cbn [st tab histories withState withStdout].
    now apply rem_right_left.
Qed.

Lemma navigate_there_and_back_witness :
  validTab (st watchingChild) /\
  exists w1 w2,
    arrowHandler keys.left watchingChild = (Ret tt, w1) /\
    arrowHandler keys.right w1 = (Ret tt, w2) /\
    tab (st w2) = tab (st watchingChild).
Proof.
  assert (H : validTab (st watchingChild)) by (vm_compute; split; congruence).
  split; [exact H|].
  exact (proj1 (navigate_there_and_back watchingChild H)).
Defined.

(** C2, at a state the session reaches. The child tab is active with 30
    lines of history and a viewport of 20, the main tab holds one line. The
    left arrow makes tab 0 active and sets the cursor to 10, the tail of the
    tab that was left; the tail of the tab that is now shown is 0. *)
Theorem arrowHandler_left_takes_tail_of_old_tab :
  let w' := snd (arrowHandler keys.left watchingChild) in
  tab (st watchingChild) = 1 /\
  fst (arrowHandler keys.left watchingChild) = Ret tt /\
  tab (st w') = 0 /\
  cursor (st w') = 10 /\
  tailCursor (st w') = Some 0.
Proof. vm_compute. repeat split. Qed.

(** The right arrow, for comparison, leaves the cursor at the tail of the
    tab it shows. *)
Lemma arrowHandler_right_takes_tail_of_new_tab (w : world) :
  validTab (st w) ->
  exists w', arrowHandler keys.right w = (Ret tt, w') /\
    tab (st w') = (tab (st w) + 1) mod len (histories (st w)) /\
    tailCursor (st w') = Some (cursor (st w')).
Proof.
  intros Ht. destruct (arrowHandler_right w Ht) as (h' & v & Hh' & _ & E).
  eexists. split; [exact E|]. split.
  - cbn [st tab withState withStdout]. apply rem_right_mod. exact Ht.
  - unfold tailCursor.
    cbn [st tab lines histories cursor withState withStdout].
    now rewrite Hh'.
Qed.

(** ** Sessions *)

Lemma run_snoc (w : world) (es : list event) (e : event) :
  run w (es ++ [e]) = handle (run w es) e.
Proof. unfold run. now rewrite fold_left_app. Qed.

Lemma reachable_start (n : nat) : reachable (viewProcessesInTabs n).
Proof. exists n, []. unfold run. cbn [fold_left]. reflexivity. Qed.

Lemma reachable_run (w : world) (es : list event) :
  reachable w -> reachable (run w es).
Proof.
  intros (n & es0 & ->). exists n, (es0 ++ es).
  unfold run. now rewrite fold_left_app.
Qed.

Lemma reachable_handle (w : world) (e : event) :
  reachable w -> reachable (handle w e).
Proof. intros H. exact (reachable_run w [e] H). Qed.

Lemma reachable_watchingChild : reachable watchingChild.
Proof. unfold watchingChild. apply reachable_run, reachable_start. Qed.

(** C3, on a session that runs from [viewProcessesInTabs]: after the left
    arrow on [watchingChild] the cursor is 10 while the largest cursor of
    the tab that is shown is 0. *)
Theorem cursor_beyond_content_after_left :
  reachable watchingChild /\
  let w' := handle watchingChild (StdinData keys.left) in
  reachable w' /\
  session w' = Running /\
  tailCursor (st w') = Some 0 /\
  cursor (st w') = 10.
Proof.
  split; [exact reachable_watchingChild|]. split.
  - apply reachable_handle, reachable_watchingChild.
  - vm_compute. repeat split.
Qed.

(** ** Scrolling *)

Lemma redrawn_not_silent (w w' : world) : redrawn w w' -> ~ silent w w'.
Proof.
  intros (v & _ & E) S. unfold silent in S. rewrite S in E.
  rewrite <- (app_nil_r (stdout w)) in E at 1.
  apply app_inv_head in E. discriminate.
Qed.

(** The cursor that a scroll in direction [d] asks for. *)
Lemma scrollHandler_direction (w : world) (data : Buffer) (d : Z)
      (h : list line) :
  index (histories (st w)) (tab (st w)) = Some h ->
  isScrollEvent data = Some d ->
  let s := st w in
  let c' := if d =? -1 then Z.max 0 (cursor s - 1)
            else Z.min (maxCursorOf h (lines s)) (cursor s + 1) in
  let s' := mkState (tab s) (lines s) (processes s) (histories s) c' in
  exists v, view s' = Some v /\
    scrollHandler data w =
    (Ret tt, if c' =? cursor s then withState s' w
             else withStdout (stdout w ++ frame v) (withState s' w)).
Proof.
  intros Hh E s c' s'.
  destruct (view_defined s' h Hh) as [v Hv]. exists v. split; [exact Hv|].
  unfold scrollHandler, bind, getState. rewrite E.
  destruct (isScrollEvent_direction data d E) as [-> | ->].
  - change (-1 =? -1) with true in *. change (-1 =? 1) with false.
    unfold when, setCursor, modify, ret.
    cbn [st withState tab lines processes histories cursor].
    fold s. fold c'. fold s'.
    destruct (c' =? cursor s); cbn [negb]; [reflexivity|].
    exact (render_withState w s' v Hv).
  - change (1 =? -1) with false in *. change (1 =? 1) with true.
    unfold when, setCursor, modify, lengthOf. rewrite Hh. unfold ret.
    cbn [st withState tab lines processes histories cursor].
    fold s. unfold maxCursorOf in c'. fold c'. fold s'.
    destruct (c' =? cursor s); cbn [negb]; [reflexivity|].
    exact (render_withState w s' v Hv).
Qed.

(** The scroll handler called on its own. On a state whose active tab has
    a history [h], a chunk that decodes
    to a scroll in direction [d] makes the handler return with: for [d = -1]
    (scroll up) the cursor one less, but not below 0; for [d = 1] (scroll
    down) the cursor one more, but not above [max 0 (len h - lines)]; the
    screen redrawn when the cursor differs from the one before, and nothing
    written when it is the same. *)
Theorem scrollHandler_moves_cursor (w : world) (data : Buffer) (d : Z)
        (h : list line) :
  index (histories (st w)) (tab (st w)) = Some h ->
  isScrollEvent data = Some d ->
  exists w', scrollHandler data w = (Ret tt, w') /\
    (d = -1 \/ d = 1) /\
    (d = -1 -> cursor (st w') = Z.max 0 (cursor (st w) - 1)) /\
    (d = 1 ->
     cursor (st w') =
     Z.min (Z.max 0 (len h - lines (st w))) (cursor (st w) + 1)) /\
    (cursor (st w') <> cursor (st w) -> redrawn w w') /\
    (cursor (st w') = cursor (st w) -> silent w w').
Proof.
  intros Hh E.
  destruct (scrollHandler_direction w data d h Hh E) as (v & Hv & R).
  eexists. split; [exact R|].
  split; [exact (isScrollEvent_direction data d E)|].
  unfold maxCursorOf in *.
  set (c' := if d =? -1 then _ else _) in *.
  assert (Hup : d = -1 -> c' = Z.max 0 (cursor (st w) - 1))
    by (intros ->; reflexivity).
  assert (Hdown : d = 1 -> c' = Z.min (Z.max 0 (len h - lines (st w)))
                                      (cursor (st w) + 1))
    by (intros ->; reflexivity).
  destruct (Z.eqb_spec c' (cursor (st w))) as [Heq|Hne];
    cbn [st withState withStdout cursor stdout];
    (split; [exact Hup|]); (split; [exact Hdown|]); split.
  - intros Hx. contradiction.
  - intros _. reflexivity.
  - intros _. exists v. split; [exact Hv|reflexivity].
  - intros Hx. contradiction.
Qed.

Lemma scrollHandler_moves_cursor_witness :
  index (histories (st watchingChild)) (tab (st watchingChild)) =
    Some (repeat (Chunk [x61]) 30) /\
  isScrollEvent (wheel x61) = Some (-1) /\
  exists w', scrollHandler (wheel x61) watchingChild = (Ret tt, w') /\
             cursor (st w') = 9 /\ redrawn watchingChild w'.
Proof.
  assert (Hh : index (histories (st watchingChild)) (tab (st watchingChild))
               = Some (repeat (Chunk [x61]) 30)) by (vm_compute; reflexivity).
  assert (E : isScrollEvent (wheel x61) = Some (-1)) by reflexivity.
  destruct (scrollHandler_moves_cursor watchingChild (wheel x61) (-1) _ Hh E)
    as (w' & R & _ & Hup & _ & Hre & _).
  split; [exact Hh|]. split; [exact E|].
  exists w'. split; [exact R|].
  assert (Hc : cursor (st w') = 9)
    by (rewrite (Hup eq_refl); vm_compute; reflexivity).
  split; [exact Hc|]. apply Hre. rewrite Hc. vm_compute. discriminate.
Defined.

Lemma render_state (w : world) : st (snd (render w)) = st w.
Proof.
  unfold render, bind, getState. destruct (view (st w)); [|reflexivity].
  now rewrite forEach_write.
Qed.

Lemma render_keeps (w : world) :
  restartListeners (snd (render w)) = restartListeners w /\
  exitCode (snd (render w)) = exitCode w /\
  session (snd (render w)) = session w.
Proof.
  unfold render, bind, getState. destruct (view (st w)); [|now repeat split].
  rewrite forEach_write. now repeat split.
Qed.

(** C10. Whatever the state and the chunk, and whether the handler returns
    or throws, the state it leaves has the tab, the viewport height, the
    processes and the histories it found: only the cursor can differ. *)
Theorem scrollHandler_frame (w : world) (data : Buffer) :
  let w' := snd (scrollHandler data w) in
  tab (st w') = tab (st w) /\
  lines (st w') = lines (st w) /\
  processes (st w') = processes (st w) /\
  histories (st w') = histories (st w).
Proof.
  unfold scrollHandler, bind, getState.
  destruct (isScrollEvent data) as [d|]; [|now repeat split].
  unfold when, setCursor, modify, lengthOf, ret, throw.
  destruct (d =? -1), (d =? 1),
    (index (histories (st w)) (tab (st w))) as [h|];
    cbn [st withState tab lines processes histories cursor fst snd];
    try (now repeat split);
    match goal with
    | |- context [if negb ?b then _ else _] => destruct b; cbn [negb]
    end;
    try (now repeat split);
    match goal with
    | |- context [render ?x] =>
        pose proof (render_state x) as R; destruct (render x) as [o x'];
        cbn [snd] in *; rewrite R; now repeat split
    end.
Qed.

(** The handler returns when the active tab is one of the tabs. *)
Lemma scrollHandler_returns (w : world) (data : Buffer) :
  validTab (st w) -> fst (scrollHandler data w) = Ret tt.
Proof.
  intros Ht. destruct (index_in_range _ _ Ht) as [h Hh].
  destruct (isScrollEvent data) as [d|] eqn:E.
  - destruct (scrollHandler_direction w data d h Hh E) as (v & _ & ->).
    reflexivity.
  - unfold scrollHandler, bind, getState. now rewrite E.
Qed.

(** ** Output of the active child *)

(** What the two listeners on the output of [processes[i]] do when its tab
    is shown: the chunk is stored, [T] is the tail of the history that
    holds it, and the cursor follows when it is above [T - 2]. *)
Lemma childData_on_active_tab (w : world) (i : nat) (data : Buffer)
      (h : list line) :
  Z.of_nat i + 1 = tab (st w) ->
  index (histories (st w)) (tab (st w)) = Some h ->
  let s := st w in
  let hs' := updateAt (S i)
               (fun h => trackHistory sessionRetention h (Chunk data))
               (histories s) in
  let T := maxCursorOf (trackHistory sessionRetention h (Chunk data))
                       (lines s) in
  index hs' (tab s) = Some (trackHistory sessionRetention h (Chunk data)) /\
  exists v,
    view (mkState (tab s) (lines s) (processes s) hs' T) = Some v /\
    dispatch (ChildData i data) w =
    (Ret tt,
     if cursor s >? T - 2
     then withStdout (stdout w ++ frame v)
            (withState (mkState (tab s) (lines s) (processes s) hs' T) w)
     else withState
            (mkState (tab s) (lines s) (processes s) hs' (cursor s)) w).
Proof.
  intros Hi Hh s hs' T.
  assert (Hh' : index hs' (tab s) =
                Some (trackHistory sessionRetention h (Chunk data))).
  { unfold hs', s. replace (S i) with (Z.to_nat (tab (st w))) by lia.
    exact (index_updateAt_same _ _
             (fun h => trackHistory sessionRetention h (Chunk data)) _ Hh). }
  split; [exact Hh'|].
  destruct (view_defined (mkState (tab s) (lines s) (processes s) hs' T)
                         _ Hh') as [v Hv].
  exists v. split; [exact Hv|].
  unfold dispatch, trackHistoryOf, updateActiveTab, bind, getState,
    setHistories, modify.
  cbn [st withState tab lines processes histories cursor].
  fold s. fold hs'. rewrite Hi. fold s. rewrite Z.eqb_refl.
  unfold lengthOf. rewrite Hh'. unfold ret.
  cbn [st withState tab lines processes histories cursor].
  fold s. unfold maxCursorOf in T. fold T.
  destruct (cursor s >? T - 2); unfold when, setCursor, modify.
  - cbn [st withState tab lines processes histories cursor].
    rewrite withState_twice.
    exact (render_withState w _ v Hv).
  - reflexivity.
Qed.

(** C7, as the code has it. When [processes[i]] writes a chunk while its
    tab is shown, the chunk is first stored in the history of the tab; with
    [T] the largest cursor of the history that now holds it: if the cursor
    is above [T - 2] (at most one line short of [T]) the cursor becomes [T]
    and the screen is redrawn; otherwise the cursor stays and nothing is
    written. *)
Theorem updateActiveTab_follows (w : world) (i : nat) (data : Buffer)
        (h : list line) :
  Z.of_nat i + 1 = tab (st w) ->
  index (histories (st w)) (tab (st w)) = Some h ->
  let T := maxCursorOf (trackHistory sessionRetention h (Chunk data))
                       (lines (st w)) in
  exists w', dispatch (ChildData i data) w = (Ret tt, w') /\
    tailCursor (st w') = Some T /\
    (T - 2 < cursor (st w) -> cursor (st w') = T /\ redrawn w w') /\
    (cursor (st w) <= T - 2 ->
     cursor (st w') = cursor (st w) /\ silent w w').
Proof.
  intros Hi Hh T.
  destruct (childData_on_active_tab w i data h Hi Hh) as (Hh' & v & Hv & R).
  fold T in Hv, R. eexists. split; [exact R|].
  destruct (Z.gtb_spec (cursor (st w)) (T - 2)) as [Hgt|Hle];
    unfold tailCursor;
    cbn [st withState withStdout tab lines histories cursor stdout];
    rewrite Hh'; (split; [reflexivity|]); split; intros Hx; try lia.
  - split; [reflexivity|]. exists v. split; [exact Hv|reflexivity].
  - split; reflexivity.
Qed.

Lemma updateActiveTab_follows_witness :
  Z.of_nat 0 + 1 = tab (st watchingChild) /\
  index (histories (st watchingChild)) (tab (st watchingChild)) =
    Some (repeat (Chunk [x61]) 30) /\
  exists w', dispatch (ChildData 0 [x61]) watchingChild = (Ret tt, w') /\
             cursor (st w') = 11 /\ redrawn watchingChild w'.
Proof.
  assert (Hi : Z.of_nat 0 + 1 = tab (st watchingChild))
    by (vm_compute; reflexivity).
  assert (Hh : index (histories (st watchingChild)) (tab (st watchingChild))
               = Some (repeat (Chunk [x61]) 30)) by (vm_compute; reflexivity).
  split; [exact Hi|]. split; [exact Hh|].
  destruct (updateActiveTab_follows watchingChild 0 [x61] _ Hi Hh)
    as (w' & R & _ & Hfollow & _).
  exists w'. split; [exact R|].
  assert (Hc : maxCursorOf
                 (trackHistory sessionRetention (repeat (Chunk [x61]) 30)
                               (Chunk [x61]))
                 (lines (st watchingChild)) = 11)
    by (vm_compute; reflexivity).
  rewrite Hc in Hfollow. apply Hfollow. vm_compute. reflexivity.
Defined.

(** C7 as the specification words it fails on [scrolledBack]: the cursor is
    9, one line short of the tail 10 of the 30 lines, and two lines short
    of the tail 11 once the chunk is stored; the chunk is stored without a
    redraw and the cursor stays 9. *)
Lemma updateActiveTab_not_within_two :
  ~ autoFollowAsStated scrolledBack 0 [x61].
Proof.
  intros H.
  specialize (H 10 11 (snd (dispatch (ChildData 0 [x61]) scrolledBack))).
  assert (Hc : cursor (st scrolledBack) = 9) by (vm_compute; reflexivity).
  rewrite Hc in H. change (Z.abs (10 - 9) <=? 2) with true in H.
  cbv iota in H.
  destruct H as [Hcur _]; try (vm_compute; reflexivity).
  vm_compute in Hcur. discriminate.
Qed.

(** ** Interrupt *)

(** The exit code [process.exitCode || 0]. *)
Lemma terminateHandler_main (w : world) :
  tab (st w) = 0 ->
  let s := st w in
  let code := match exitCode w with
              | Some c => if c =? 0 then 0 else c
              | None => 0
              end in
  terminateHandler keys.SIGINT w =
  (Abort ProcessExit,
   mkWorld (mkState (tab s) (lines s) (map (kill SIGTERM) (processes s))
                    (histories s) (cursor s))
           ((stdout w ++ [Write (Text (esc ++ "[?1005l")%string)])
              ++ [Write (Text (esc ++ "[?1003l")%string)])
           (restartListeners w) (exitCode w) (Ended code)).
Proof.
  intros Ht s code. unfold terminateHandler. compare_keys.
  unfold bind at 1. unfold getState at 1. cbv iota beta. rewrite Ht.
  change (0 =? 0) with true. change (0 >? 0) with false.
  reflexivity.
Qed.

(** C8. On the main tab of a running session the interrupt key passes
    SIGTERM to [kill] once for every child process, in no other way changes
    what was sent to them, and ends the session through [process.exit]:
    no later event is handled. *)
Theorem interrupt_on_main_tab (w : world) :
  tab (st w) = 0 ->
  session w = Running ->
  let w' := handle w (StdinData keys.SIGINT) in
  (exists code, session w' = Ended code) /\
  Forall2 (fun p p' => killed p' = killed p ++ [SIGTERM])
          (processes (st w)) (processes (st w')) /\
  (forall e, handle w' e = w').
Proof.
  intros Ht Hs w'.
  assert (E : w' = snd (terminateHandler keys.SIGINT w)).
  { unfold w', handle, deliverable. rewrite Hs. unfold dispatch.
    unfold bind at 1. now rewrite (terminateHandler_main w Ht). }
  rewrite (terminateHandler_main w Ht) in E. cbn [snd] in E.
  rewrite E. cbn [session st processes]. split; [eauto|]. split.
  - clear. induction (processes (st w)) as [|p ps IH];
      cbn [map]; constructor; [reflexivity | exact IH].
  - intros e. unfold handle, deliverable. cbn [session]. reflexivity.
Qed.

Lemma interrupt_on_main_tab_witness :
  tab (st (viewProcessesInTabs 2)) = 0 /\
  session (viewProcessesInTabs 2) = Running /\
  Forall2 (fun p p' => killed p' = killed p ++ [SIGTERM])
    (processes (st (viewProcessesInTabs 2)))
    (processes (st (handle (viewProcessesInTabs 2) (StdinData keys.SIGINT)))).
Proof.
  assert (Ht : tab (st (viewProcessesInTabs 2)) = 0) by reflexivity.
  assert (Hs : session (viewProcessesInTabs 2) = Running) by reflexivity.
  split; [exact Ht|]. split; [exact Hs|].
  exact (proj1 (proj2 (interrupt_on_main_tab (viewProcessesInTabs 2) Ht Hs))).
Defined.

Lemma render_valid (w : world) :
  validTab (st w) ->
  exists v, view (st w) = Some v /\
            render w = (Ret tt, withStdout (stdout w ++ frame v) w).
Proof.
  intros Ht. destruct (index_in_range _ _ Ht) as [h Hh].
  destruct (view_defined _ _ Hh) as [v Hv]. exists v. split; [exact Hv|].
  now apply render_ok.
Qed.

Lemma exitObserver_spec (t : Z) (w : world) (m h : list line) :
  0 < t ->
  index (histories (st w)) 0 = Some m ->
  index (histories (st w)) t = Some h ->
  validTab (st w) ->
  exists w', exitObserver t w = (Ret tt, w') /\
    histories (st w') =
      updateAt (Z.to_nat t)
        (fun h => h ++ [Text nl; Text (restartPrompt t)])
        (updateAt 0 (fun m => m ++ [Text (exitNotice t)])
                  (histories (st w))) /\
    tab (st w') = tab (st w) /\
    lines (st w') = lines (st w) /\
    processes (st w') = processes (st w) /\
    cursor (st w') = cursor (st w) /\
    session w' = session w.
Proof.
  intros Ht Hm Hh Hv.
  unfold exitObserver, print, push, bind. unfold getState at 1. cbv beta iota.
  rewrite Hm. unfold setHistories, modify. cbv beta iota.
  set (w1 := withState _ w).
  assert (Hv1 : validTab (st w1)).
  { unfold validTab, w1. cbn [st withState tab histories].
    rewrite len_updateAt. exact Hv. }
  destruct (render_valid w1 Hv1) as (v1 & _ & ->). cbv beta iota.
  unfold getState at 1. cbv beta iota.
  assert (H1 : index (histories (st (withStdout (stdout w1 ++ frame v1) w1))) t
               = Some h).
  { unfold w1. cbn [st withState withStdout histories].
    rewrite index_updateAt_other by lia. exact Hh. }
  rewrite H1. cbv beta iota. unfold addRestartListener, getState, when.
  clear H1 Hv1. subst w1.
  cbn [st withState withStdout tab lines processes histories cursor stdout
       restartListeners exitCode session].
  set (s3 := mkState _ _ _ _ _). set (w3 := mkWorld _ _ _ _ _).
  destruct (tab (st w) =? t).
  - assert (Hv3 : validTab (st w3)).
    { unfold validTab, w3, s3. cbn [st tab histories].
      rewrite !len_updateAt. exact Hv. }
    destruct (render_valid w3 Hv3) as (v3 & _ & ->).
    eexists. split; [reflexivity|]. now repeat split.
  - eexists. split; [reflexivity|]. now repeat split.
Qed.

(** All the observers of one child, which all captured its tab [t]. *)
Lemma exitObservers_spec (t : Z) (ls : list Z) :
  0 < t -> Forall (eq t) ls ->
  forall (w : world) (m h : list line),
  index (histories (st w)) 0 = Some m ->
  index (histories (st w)) t = Some h ->
  validTab (st w) ->
  exists w', forEach ls exitObserver w = (Ret tt, w') /\
    index (histories (st w')) 0 =
      Some (m ++ map (fun _ => Text (exitNotice t)) ls) /\
    index (histories (st w')) t =
      Some (h ++ flat_map (fun _ => [Text nl; Text (restartPrompt t)]) ls) /\
    validTab (st w') /\
    len (histories (st w')) = len (histories (st w)) /\
    tab (st w') = tab (st w) /\
    processes (st w') = processes (st w) /\
    cursor (st w') = cursor (st w) /\
    session w' = session w.
Proof.
  intros Ht Hall. induction Hall as [|l ls <- _ IH]; intros w m h Hm Hh Hv.
  - exists w. cbn [forEach map flat_map]. rewrite !app_nil_r.
    split; [reflexivity|]. split; [exact Hm|]. split; [exact Hh|].
    split; [exact Hv|]. now repeat split.
  - destruct (exitObserver_spec t w m h Ht Hm Hh Hv)
      as (w1 & E1 & Hhs & Htab & _ & Hps & Hcur & Hses).
    assert (Hm0 : index (updateAt 0 (fun m => m ++ [Text (exitNotice t)])
                           (histories (st w))) 0
                  = Some (m ++ [Text (exitNotice t)]))
      by exact (index_updateAt_same _ 0 _ _ Hm).
    assert (Hm1 : index (histories (st w1)) 0
                  = Some (m ++ [Text (exitNotice t)])).
    { rewrite Hhs. rewrite index_updateAt_other by lia. exact Hm0. }
    assert (Hh1 : index (histories (st w1)) t
                  = Some (h ++ [Text nl; Text (restartPrompt t)])).
    { rewrite Hhs.
      apply (index_updateAt_same _ t
               (fun h => h ++ [Text nl; Text (restartPrompt t)])).
      change 0%nat with (Z.to_nat 0).
      rewrite index_updateAt_other by lia. exact Hh. }
    assert (Hv1 : validTab (st w1)).
    { unfold validTab. rewrite Htab, Hhs, !len_updateAt. exact Hv. }
    destruct (IH w1 _ _ Hm1 Hh1 Hv1)
      as (w' & E' & Hm' & Hh' & Hv' & Hlen' & Htab' & Hps' & Hcur' & Hses').
    exists w'. cbn [forEach]. unfold bind. rewrite E1.
    split; [exact E'|]. cbn [map flat_map].
    rewrite Hm', Hh', <- !app_assoc.
    split; [reflexivity|]. split; [reflexivity|]. split; [exact Hv'|].
    split; [rewrite Hlen', Hhs, !len_updateAt; reflexivity|].
    repeat split; congruence.
Qed.

Lemma index_nth_error {A} (l : list A) (i : Z) :
  0 <= i -> index l i = nth_error l (Z.to_nat i).
Proof. intros H. unfold index. destruct (Z.ltb_spec i 0); [lia|reflexivity]. Qed.

Lemma restartHandlers_idle (data : Buffer) (n : nat) (w : world) :
  forEach (repeat data n) restartHandler w = (Ret tt, w).
Proof.
  induction n as [|n IH]; [reflexivity|].
  cbn [repeat forEach]. unfold bind, restartHandler at 1.
  destruct (equals data keys.k); exact IH.
Qed.

(** The interrupt key on the tab [t] of a child. *)
Lemma terminateHandler_child (w : world) (t : Z) (p : ChildProcess)
      (h : list line) :
  tab (st w) = t -> 0 < t ->
  index (processes (st w)) (t - 1) = Some p ->
  index (histories (st w)) t = Some h ->
  let s := st w in
  let s1 :=
    mkState (tab s) (lines s)
      (updateAt (Z.to_nat (t - 1)) (kill SIGINT)
         (updateAt (Z.to_nat (t - 1)) (onExitListener t) (processes s)))
      (updateAt (Z.to_nat t)
         (fun h => h ++ [Text nl; Text receivedSigint]) (histories s))
      (cursor s) in
  exists v, view s1 = Some v /\
    terminateHandler keys.SIGINT w =
    (Ret tt, withStdout (stdout w ++ frame v) (withState s1 w)).
Proof.
  intros Htab Ht Hp Hh s s1.
  assert (Hh1 : index (histories s1) (tab s1) =
                Some (h ++ [Text nl; Text receivedSigint])).
  { unfold s1, s. cbn [histories tab]. rewrite Htab.
    exact (index_updateAt_same _ t
             (fun h => h ++ [Text nl; Text receivedSigint]) _ Hh). }
  destruct (view_defined s1 _ Hh1) as [v Hv]. exists v. split; [exact Hv|].
  unfold terminateHandler. compare_keys.
  unfold bind at 1. unfold getState at 1. cbv beta iota. rewrite Htab.
  replace (t =? 0) with false by (symmetry; apply Z.eqb_neq; lia).
  replace (t >? 0) with true by (symmetry; apply Z.gtb_lt; lia).
  unfold when at 1. unfold bind at 1. unfold ret at 1. cbv beta iota.
  unfold when. rewrite Hp.
  unfold push, bind, getState, setProcesses, setHistories, modify.
  cbn [st withState tab lines processes histories cursor].
  rewrite Hh.
  cbn [st withState tab lines processes histories cursor].
  rewrite !withState_twice.
  match goal with
  | |- context [render (withState ?s0 w)] =>
      rewrite (render_withState w s0 v Hv)
  end.
  reflexivity.
Qed.

Lemma arrowHandler_other_key (data : Buffer) (w : world) :
  equals data keys.left = false -> equals data keys.right = false ->
  arrowHandler data w = render w.
Proof.
  intros Hl Hr. unfold arrowHandler, bind, getState, when.
  rewrite Hl, Hr. unfold ret. reflexivity.
Qed.

(** All the listeners of the terminal, for the interrupt key on the tab
    [t] of a child: the handler above, and one more frame drawn by
    [arrowHandler]. *)
Lemma dispatch_interrupt_child (w : world) (t : Z) (p : ChildProcess)
      (h : list line) :
  tab (st w) = t -> 0 < t ->
  index (processes (st w)) (t - 1) = Some p ->
  index (histories (st w)) t = Some h ->
  let s := st w in
  let s1 :=
    mkState (tab s) (lines s)
      (updateAt (Z.to_nat (t - 1)) (kill SIGINT)
         (updateAt (Z.to_nat (t - 1)) (onExitListener t) (processes s)))
      (updateAt (Z.to_nat t)
         (fun h => h ++ [Text nl; Text receivedSigint]) (histories s))
      (cursor s) in
  exists v,
    dispatch (StdinData keys.SIGINT) w =
    (Ret tt, withStdout ((stdout w ++ frame v) ++ frame v) (withState s1 w)).
Proof.
  intros Htab Ht Hp Hh s s1.
  destruct (terminateHandler_child w t p h Htab Ht Hp Hh) as (v & Hv & E).
  fold s in Hv, E. fold s1 in Hv, E. exists v.
  unfold dispatch. unfold bind at 1. rewrite E. cbv beta iota.
  unfold bind at 1. rewrite arrowHandler_other_key by reflexivity.
  rewrite (render_ok _ v) by exact Hv. cbv beta iota.
  unfold bind at 1.
  replace (scrollHandler keys.SIGINT) with (@ret unit tt) by reflexivity.
  unfold ret at 1. unfold bind. cbv beta iota.
  rewrite restartHandlers_idle. reflexivity.
Qed.

(** The exit of [processes[i]], whose observers all captured the tab
    [t = i + 1]. *)
Lemma dispatch_childExit (w : world) (i : nat) (p : ChildProcess) (t : Z)
      (m h : list line) :
  nth_error (processes (st w)) i = Some p ->
  0 < t ->
  Forall (eq t) (exitListeners p) ->
  index (histories (st w)) 0 = Some m ->
  index (histories (st w)) t = Some h ->
  validTab (st w) ->
  exists w', dispatch (ChildExit i) w = (Ret tt, w') /\
    index (histories (st w')) 0 =
      Some (m ++ map (fun _ => Text (exitNotice t)) (exitListeners p)) /\
    index (histories (st w')) t =
      Some (h ++ flat_map (fun _ => [Text nl; Text (restartPrompt t)])
                          (exitListeners p)) /\
    processes (st w') = updateAt i reportExit (processes (st w)) /\
    len (histories (st w')) = len (histories (st w)) /\
    tab (st w') = tab (st w) /\
    cursor (st w') = cursor (st w) /\
    session w' = session w.
Proof.
  intros Hp Ht Hall Hm Hh Hv.
  unfold dispatch, bind, getState, setProcesses, modify.
  cbv beta iota. rewrite Hp.
  set (w0 := withState _ w).
  destruct (exitObservers_spec t (exitListeners p) Ht Hall w0 m h Hm Hh Hv)
    as (w' & E & Hm' & Hh' & _ & Hlen & Htab & Hps & Hcur & Hses).
  exists w'. split; [exact E|]. split; [exact Hm'|]. split; [exact Hh'|].
  split; [exact Hps|]. split; [exact Hlen|].
  split; [exact Htab|]. split; [exact Hcur|exact Hses].
Qed.

(** C9. The interrupt key on the tab [t > 0] of a child that has not
    exited, in a running session: at once the history of tab [t] gains
    exactly a blank line and the line "Received SIGINT", the main history
    gains nothing, an exit observer is added to the child and SIGINT is
    passed to its [kill]. When the exit of that child is then delivered,
    every observer of the child (those registered by earlier interrupts on
    this tab, and the new one) appends one "Process 't' exited" line to the
    main history and a blank line and the restart prompt to the history of
    tab [t], and the child is recorded as exited. *)
Theorem interrupt_on_child_tab (w : world) (t : Z) (p : ChildProcess)
        (m h : list line) :
  session w = Running ->
  tab (st w) = t ->
  0 < t ->
  index (processes (st w)) (t - 1) = Some p ->
  exited p = false ->
  Forall (eq t) (exitListeners p) ->
  index (histories (st w)) 0 = Some m ->
  index (histories (st w)) t = Some h ->
  let w1 := handle w (StdinData keys.SIGINT) in
  let w2 := handle w1 (ChildExit (Z.to_nat (t - 1))) in
  let observers := exitListeners p ++ [t] in
  (session w1 = Running /\
   index (histories (st w1)) t = Some (h ++ [Text nl; Text receivedSigint]) /\
   index (histories (st w1)) 0 = Some m /\
   index (processes (st w1)) (t - 1) =
     Some (mkChild (killed p ++ [SIGINT]) observers false)) /\
  (session w2 = Running /\
   index (histories (st w2)) 0 =
     Some (m ++ map (fun _ => Text (exitNotice t)) observers) /\
   index (histories (st w2)) t =
     Some ((h ++ [Text nl; Text receivedSigint]) ++
           flat_map (fun _ => [Text nl; Text (restartPrompt t)]) observers) /\
   index (processes (st w2)) (t - 1) =
     Some (mkChild (killed p ++ [SIGINT]) observers true)).
Proof.
  intros Hs Htab Ht Hp Hex Hall Hm Hh w1 w2 observers.
  destruct (dispatch_interrupt_child w t p h Htab Ht Hp Hh) as (v & E).
  match type of E with _ = (_, ?x) => set (w1' := x) in E end.
  assert (E1 : w1 = w1').
  { unfold w1, handle, deliverable. rewrite Hs, E. reflexivity. }
  assert (Hp1 : index (processes (st w1')) (t - 1) =
                Some (mkChild (killed p ++ [SIGINT]) observers false)).
  { unfold w1'. cbn [st withState withStdout processes].
    rewrite (index_updateAt_same _ (t - 1) (kill SIGINT)
               (onExitListener t p)).
    - unfold kill, onExitListener. cbn [killed exitListeners exited].
      now rewrite Hex.
    - exact (index_updateAt_same _ (t - 1) (onExitListener t) p Hp). }
  assert (Hh1 : index (histories (st w1')) t =
                Some (h ++ [Text nl; Text receivedSigint])).
  { unfold w1'. cbn [st withState withStdout histories].
    exact (index_updateAt_same _ t
             (fun h => h ++ [Text nl; Text receivedSigint]) _ Hh). }
  assert (Hm1 : index (histories (st w1')) 0 = Some m).
  { unfold w1'. cbn [st withState withStdout histories].
    rewrite index_updateAt_other by lia. exact Hm. }
  assert (Hs1 : session w1' = Running) by exact Hs.
  split.
  { rewrite E1. repeat split; assumption. }
  assert (Hv1 : validTab (st w1')).
  { unfold validTab, w1'. cbn [st withState withStdout histories tab].
    rewrite len_updateAt, Htab.
    exact (index_Some_range _ _ _ Hh). }
  assert (Hn1 : nth_error (processes (st w1')) (Z.to_nat (t - 1)) =
                Some (mkChild (killed p ++ [SIGINT]) observers false)).
  { rewrite <- index_nth_error by lia. exact Hp1. }
  assert (Hall1 : Forall (eq t) observers).
  { unfold observers. apply Forall_app. split; [exact Hall|].
    constructor; [reflexivity|constructor]. }
  destruct (dispatch_childExit w1' (Z.to_nat (t - 1)) _ t m _
              Hn1 Ht Hall1 Hm1 Hh1 Hv1)
    as (w2' & E2 & Hm2 & Hh2 & Hps2 & _ & _ & _ & Hs2).
  assert (E2' : w2 = w2').
  { unfold w2. rewrite E1. unfold handle, deliverable.
    rewrite Hs1, Hn1. cbn [exited negb]. rewrite E2. reflexivity. }
  rewrite E2'. cbn [exitListeners] in Hm2, Hh2.
  split; [congruence|]. split; [exact Hm2|]. split; [exact Hh2|].
  rewrite Hps2.
  exact (index_updateAt_same _ (t - 1) reportExit _ Hp1).
Qed.

Lemma interrupt_on_child_tab_witness :
  session watchingChild = Running /\
  tab (st watchingChild) = 1 /\
  0 < 1 /\
  index (processes (st watchingChild)) (1 - 1) = Some spawn /\
  exited spawn = false /\
  Forall (eq 1) (exitListeners spawn) /\
  index (histories (st watchingChild)) 0 =
    Some [Text ("Initialized!" ++ nl)%string] /\
  index (histories (st watchingChild)) 1 = Some (repeat (Chunk [x61]) 30) /\
  index (histories
           (st (handle (handle watchingChild (StdinData keys.SIGINT))
                       (ChildExit (Z.to_nat (1 - 1)))))) 0 =
    Some ([Text ("Initialized!" ++ nl)%string] ++ [Text (exitNotice 1)]).
Proof.
  assert (Hs : session watchingChild = Running) by (vm_compute; reflexivity).
  assert (Htab : tab (st watchingChild) = 1) by (vm_compute; reflexivity).
  assert (Ht : 0 < 1) by lia.
  assert (Hp : index (processes (st watchingChild)) (1 - 1) = Some spawn)
    by (vm_compute; reflexivity).
  assert (Hex : exited spawn = false) by reflexivity.
  assert (Hall : Forall (eq 1) (exitListeners spawn)) by constructor.
  assert (Hm : index (histories (st watchingChild)) 0 =
               Some [Text ("Initialized!" ++ nl)%string])
    by (vm_compute; reflexivity).
  assert (Hh : index (histories (st watchingChild)) 1 =
               Some (repeat (Chunk [x61]) 30)) by (vm_compute; reflexivity).
  repeat (split; [assumption|]).
  exact (proj1 (proj2 (proj2
           (interrupt_on_child_tab watchingChild 1 spawn _ _
              Hs Htab Ht Hp Hex Hall Hm Hh)))).
Defined.

(** ** What holds of the cursor apart from the left arrow *)

(** A scroll keeps a cursor that is within the content within it. *)
Lemma scrollHandler_cursor_in_range (w : world) (data : Buffer)
      (h : list line) :
  index (histories (st w)) (tab (st w)) = Some h ->
  0 <= cursor (st w) <= maxCursorOf h (lines (st w)) ->
  let w' := snd (scrollHandler data w) in
  0 <= cursor (st w') <= maxCursorOf h (lines (st w)).
Proof.
  intros Hh Hc. destruct (isScrollEvent data) as [d|] eqn:E.
  - destruct (scrollHandler_direction w data d h Hh E) as (v & _ & ->).
    cbn [snd]. unfold maxCursorOf in *.
    set (c' := if d =? -1 then _ else _).
    assert (Hc' : 0 <= c' <= Z.max 0 (len h - lines (st w)))
      by (unfold c'; destruct (d =? -1); lia).
    destruct (c' =? cursor (st w)); exact Hc'.
  - unfold scrollHandler, bind, getState. rewrite E. exact Hc.
Qed.

(** The session redraws on every chunk from the terminal all the same:
    [arrowHandler] listens to the same stream and always renders. Here the
    wheel asks to scroll up at cursor 0. *)
Example wheel_at_top_still_redraws :
  let w := viewProcessesInTabs 1 in
  let w' := handle w (StdinData (wheel x61)) in
  cursor (st w) = 0 /\ cursor (st w') = 0 /\
  silent w (snd (scrollHandler (wheel x61) w)) /\
  exists v, view (st w) = Some v /\ stdout w' = stdout w ++ frame v.
Proof.
  split; [reflexivity|]. split; [reflexivity|]. split; [reflexivity|].
  eexists. split; reflexivity.
Qed.

(** Nothing bounds a child's history when the program itself writes to it:
    the interrupt key on a full history leaves more than the retention. *)
Example interrupt_note_exceeds_retention :
  let w := run (viewProcessesInTabs 1)
               (outputs 0 1000 ++ [StdinData keys.right;
                                   StdinData keys.SIGINT]) in
  option_map len (index (histories (st w)) 1) = Some 1002.
Proof. vm_compute. reflexivity. Qed.

(** ** Sessions stay well formed and never throw *)

Lemma safe_bind {A B} (m : M A) (f : A -> M B) :
  safe m -> (forall a, safe (f a)) -> safe (bind m f).
Proof.
  intros Hm Hf w Hw Hs. unfold bind.
  destruct (Hm w Hw Hs) as (Hw' & Ho & Hs').
  destruct (m w) as [[a|e] w']; cbn [fst snd] in *.
  - exact (Hf a w' Hw' Hs').
  - split; [exact Hw'|]. split; [|exact Hs'].
    intros [= ->]. now apply Ho.
Qed.

Lemma safe_ret {A} (a : A) : safe (ret a).
Proof. intros w Hw Hs. cbn. repeat split; auto; try apply Hw. discriminate. Qed.

Lemma safe_when (b : bool) (m : M unit) : safe m -> safe (when b m).
Proof. destruct b; [auto|intros _; apply safe_ret]. Qed.

Lemma safe_forEach {A} (l : list A) (f : A -> M unit) :
  (forall x, safe (f x)) -> safe (forEach l f).
Proof.
  intros Hf. induction l as [|x l IH]; cbn [forEach].
  - apply safe_ret.
  - apply safe_bind; auto.
Qed.

(** A computation that returns and changes neither the tab, nor the
    processes, nor the histories, nor the session. *)
Lemma safe_frame {A} (m : M A) :
  (forall w, validTab (st w) ->
     (exists a, fst (m w) = Ret a) /\
     tab (st (snd (m w))) = tab (st w) /\
     processes (st (snd (m w))) = processes (st w) /\
     histories (st (snd (m w))) = histories (st w) /\
     session (snd (m w)) = session w) ->
  safe m.
Proof.
  intros H w Hw Hs. destruct (H w (proj1 Hw)) as ([a Ha] & Ht & Hp & Hh & Hse).
  unfold wellFormed, validTab. rewrite Ht, Hp, Hh, Ha, Hse.
  split; [exact Hw|]. split; [discriminate|exact Hs].
Qed.

Lemma safe_render : safe render.
Proof.
  apply safe_frame. intros w Hv.
  destruct (render_valid w Hv) as (v & _ & ->). cbn. eauto 6.
Qed.

Lemma safe_scrollHandler (data : Buffer) : safe (scrollHandler data).
Proof.
  apply safe_frame. intros w Hv.
  destruct (index_in_range _ _ Hv) as [h Hh].
  destruct (isScrollEvent data) as [d|] eqn:E.
  - destruct (scrollHandler_direction w data d h Hh E) as (v & _ & ->).
    destruct (_ =? _); cbn; eauto 6.
  - unfold scrollHandler, bind, getState. rewrite E. cbn. eauto 6.
Qed.

Lemma safe_arrowHandler (data : Buffer) : safe (arrowHandler data).
Proof.
  intros w Hw Hs. pose proof (proj1 Hw) as Hv.
  destruct (equals data keys.left) eqn:El;
    [|destruct (equals data keys.right) eqn:Er].
  - apply equals_eq in El. subst data.
    destruct (index_in_range _ _ Hv) as [h Hh].
    destruct (arrowHandler_left w h Hh) as (v & _ & ->).
    cbn [fst snd]. unfold wellFormed, validTab.
    cbn [st withState withStdout tab histories processes session].
    split; [|split; [discriminate|exact Hs]].
    split; [apply Z.rem_bound_pos; unfold validTab in Hv; lia|apply Hw].
  - apply equals_eq in Er. subst data.
    destruct (arrowHandler_right w Hv) as (h' & v & _ & _ & ->).
    cbn [fst snd]. unfold wellFormed, validTab.
    cbn [st withState withStdout tab histories processes session].
    split; [|split; [discriminate|exact Hs]].
    split; [apply Z.rem_bound_pos; unfold validTab in Hv; lia|apply Hw].
  - rewrite arrowHandler_other_key by assumption.
    exact (safe_render w Hw Hs).
Qed.

Lemma nth_error_updateAt_inv {A} (n i : nat) (f : A -> A) (l : list A)
      (y : A) :
  nth_error (updateAt n f l) i = Some y ->
  exists x, nth_error l i = Some x /\ y = (if Nat.eqb n i then f x else x).
Proof.
  intros H. destruct (Nat.eqb_spec n i) as [->|Hne].
  - destruct (nth_error l i) as [x|] eqn:E.
    + rewrite (nth_error_updateAt_same i f l x E) in H.
      injection H as <-. eauto.
    + apply nth_error_None in E.
      assert (Hn : nth_error (updateAt i f l) i = None)
        by (apply nth_error_None; now rewrite length_updateAt).
      congruence.
  - rewrite nth_error_updateAt_other in H by assumption. eauto.
Qed.

(** Updating one process keeps the observers in order when the update
    does. *)
Lemma observers_updateAt (ps : list ChildProcess) (n : nat)
      (f : ChildProcess -> ChildProcess) :
  (forall i p, nth_error ps i = Some p ->
               Forall (eq (Z.of_nat i + 1)) (exitListeners p)) ->
  (forall p, Forall (eq (Z.of_nat n + 1)) (exitListeners p) ->
             Forall (eq (Z.of_nat n + 1)) (exitListeners (f p))) ->
  forall i p, nth_error (updateAt n f ps) i = Some p ->
              Forall (eq (Z.of_nat i + 1)) (exitListeners p).
Proof.
  intros Hps Hf i p H.
  destruct (nth_error_updateAt_inv n i f ps p H) as (p0 & H0 & ->).
  destruct (Nat.eqb_spec n i) as [->|_]; [apply Hf|]; exact (Hps i p0 H0).
Qed.

Lemma safe_terminateHandler (data : Buffer) : safe (terminateHandler data).
Proof.
  intros w Hw Hs. destruct Hw as (Hv & Hlen & Hobs).
  destruct (equals data keys.SIGINT) eqn:E.
  2:{ unfold terminateHandler. rewrite E. cbn.
      repeat split; auto; try apply Hv. discriminate. }
  apply equals_eq in E. subst data.
  destruct (Z.eq_dec (tab (st w)) 0) as [H0|H0].
  - rewrite (terminateHandler_main w H0). cbn [fst snd st session].
    split; [|split; discriminate].
    split; [exact Hv|]. cbn [histories processes]. split.
    + unfold len in *. now rewrite length_map.
    + intros i p Hp. rewrite nth_error_map in Hp.
      destruct (nth_error (processes (st w)) i) as [p0|] eqn:E0;
        [|discriminate].
      injection Hp as <-. exact (Hobs i p0 E0).
  - unfold validTab in Hv.
    assert (Ht : 0 < tab (st w)) by lia.
    destruct (index_in_range (processes (st w)) (tab (st w) - 1)) as [p Hp];
      [lia|].
    destruct (index_in_range (histories (st w)) (tab (st w))) as [h Hh];
      [lia|].
    destruct (terminateHandler_child w _ p h eq_refl Ht Hp Hh)
      as (v & _ & ->).
    cbn [fst snd]. unfold wellFormed, validTab.
    cbn [st withState withStdout tab histories processes session].
    rewrite !len_updateAt.
    split; [|split; [discriminate|exact Hs]].
    split; [exact Hv|]. split; [exact Hlen|].
    apply observers_updateAt; [|intros q Hq; exact Hq].
    apply observers_updateAt; [exact Hobs|].
    intros q Hq. unfold onExitListener. cbn [exitListeners].
    apply Forall_app. split; [exact Hq|].
    constructor; [lia|constructor].
Qed.

Lemma safe_restartHandler (data : Buffer) : safe (restartHandler data).
Proof. unfold restartHandler. destruct (equals _ _); apply safe_ret. Qed.

Lemma safe_trackHistoryOf (retention : Z) (i : nat) (data : line) :
  safe (trackHistoryOf retention i data).
Proof.
  intros w (Hv & Hlen & Hobs) Hs.
  unfold trackHistoryOf, bind, getState, setHistories, modify.
  cbn [fst snd]. unfold wellFormed, validTab.
  cbn [st withState tab histories processes session].
  rewrite len_updateAt.
  split; [|split; [discriminate|exact Hs]].
  split; [exact Hv|]. split; [exact Hlen|exact Hobs].
Qed.

Lemma safe_updateActiveTab (i : nat) : safe (updateActiveTab i).
Proof.
  apply safe_frame. intros w Hv.
  unfold updateActiveTab, bind, getState.
  destruct (Z.eqb_spec (Z.of_nat i + 1) (tab (st w))) as [Hi|_];
    [|cbn; eauto 6].
  destruct (index_in_range _ _ Hv) as [h Hh]. rewrite Hi, Hh.
  unfold lengthOf, ret. cbv beta iota.
  destruct (_ >? _); unfold when, setCursor, modify; cbv beta iota.
  - match goal with
    | |- context [render ?x] =>
        destruct (render_valid x Hv) as (v & _ & ->)
    end.
    cbn. eauto 6.
  - cbn. eauto 6.
Qed.

Lemma safe_childExit (i : nat) : safe (dispatch (ChildExit i)).
Proof.
  intros w (Hv & Hlen & Hobs) Hs.
  destruct (nth_error (processes (st w)) i) as [p|] eqn:Hp.
  2:{ unfold dispatch, bind, getState, setProcesses, modify.
      cbv beta iota. rewrite Hp. cbn [fst snd ret]. unfold wellFormed, validTab.
      cbn [st withState tab histories processes session].
      rewrite len_updateAt.
      split; [|split; [discriminate|exact Hs]].
      split; [exact Hv|]. split; [exact Hlen|].
      apply observers_updateAt; [exact Hobs|intros q Hq; exact Hq]. }
  assert (Hi : (i < List.length (processes (st w)))%nat)
    by (apply nth_error_Some; congruence).
  unfold len in Hlen.
  destruct (index_in_range (histories (st w)) 0) as [m Hm];
    [unfold len; lia|].
  destruct (index_in_range (histories (st w)) (Z.of_nat i + 1)) as [h Hh];
    [unfold len; lia|].
  destruct (dispatch_childExit w i p (Z.of_nat i + 1) m h Hp ltac:(lia)
              (Hobs i p Hp) Hm Hh Hv)
    as (w' & E & _ & _ & Hps & Hl & Htab & _ & Hses).
  rewrite E. cbn [fst snd]. unfold wellFormed, validTab.
  rewrite Htab, Hl, Hps, Hses, len_updateAt.
  split; [|split; [discriminate|exact Hs]].
  split; [exact Hv|]. split; [exact Hlen|].
  apply observers_updateAt; [exact Hobs|intros q Hq; exact Hq].
Qed.

Lemma safe_dispatch (e : event) : safe (dispatch e).
Proof.
  destruct e as [data|i data|i].
  - cbn [dispatch].
    apply safe_bind; [apply safe_terminateHandler|intros _].
    apply safe_bind; [apply safe_arrowHandler|intros _].
    apply safe_bind; [apply safe_scrollHandler|intros _].
    apply safe_bind.
    + apply safe_frame. intros w _. cbn. eauto 6.
    + intros n. apply safe_forEach. intros x. apply safe_restartHandler.
  - cbn [dispatch].
    apply safe_bind; [apply safe_trackHistoryOf|intros _].
    apply safe_updateActiveTab.
  - apply safe_childExit.
Qed.

Lemma handle_wellFormed (w : world) (e : event) :
  wellFormed (st w) -> session w <> Crashed ->
  wellFormed (st (handle w e)) /\ session (handle w e) <> Crashed.
Proof.
  intros Hw Hs. unfold handle. destruct (deliverable e w); [|auto].
  destruct (safe_dispatch e w Hw Hs) as (Hw' & Ho & Hs').
  destruct (dispatch e w) as [[a|[|]] w']; cbn [fst snd] in *; auto.
Qed.

Lemma wellFormed_start (n : nat) :
  wellFormed (st (viewProcessesInTabs n)) /\
  session (viewProcessesInTabs n) <> Crashed.
Proof.
  assert (H0 : wellFormed (st (setup n))).
  { change (st (setup n))
      with (mkState 0 sessionLines (repeat spawn n) (repeat [] (S n)) 0).
    unfold wellFormed, validTab, len.
    cbn [st tab histories processes]. rewrite !repeat_length.
    split; [lia|]. split; [lia|]. intros i p Hp.
    apply nth_error_In, repeat_spec in Hp. subst p. constructor. }
  unfold viewProcessesInTabs, print, push, bind. unfold getState at 1.
  cbv beta iota.
  change (index (histories (st (setup n))) 0) with (Some (@nil line)).
  cbv beta iota. unfold setHistories, modify.
  set (w1 := withState _ (setup n)).
  assert (H1 : wellFormed (st w1)).
  { destruct H0 as (Hv & Hlen & Hobs). unfold w1, wellFormed, validTab.
    cbn [st withState tab histories processes]. rewrite len_updateAt.
    split; [exact Hv|]. split; [exact Hlen|exact Hobs]. }
  assert (Hs1 : session w1 <> Crashed) by discriminate.
  destruct (safe_render w1 H1 Hs1) as (H2 & Ho2 & Hs2).
  destruct (render w1) as [[[]|e] w2]; cbn [fst snd] in *.
  - destruct (safe_render w2 H2 Hs2) as (H3 & _ & Hs3).
    destruct (render w2) as [o w3]. cbn [fst snd] in *. auto.
  - auto.
Qed.

(** Every world of a session is well formed, and no handler ever throws:
    the hypotheses on the state made above hold wherever the session
    gets. *)
Lemma reachable_wellFormed (w : world) :
  reachable w -> wellFormed (st w) /\ session w <> Crashed.
Proof.
  intros (n & es & ->). unfold run.
  generalize (wellFormed_start n). generalize (viewProcessesInTabs n).
  induction es as [|e es IH]; intros w H; [exact H|].
  cbn [fold_left]. apply IH. destruct H as [Hw Hs].
  exact (handle_wellFormed w e Hw Hs).
Qed.

(** In particular the active tab of a session always has a history, and
    on a child tab the child, its observers and the two histories that the
    interrupt key touches are there. *)
Lemma reachable_validTab (w : world) : reachable w -> validTab (st w).
Proof. intros H. exact (proj1 (proj1 (reachable_wellFormed w H))). Qed.

Lemma reachable_child_tab (w : world) :
  reachable w -> 0 < tab (st w) ->
  exists p m h,
    index (processes (st w)) (tab (st w) - 1) = Some p /\
    Forall (eq (tab (st w))) (exitListeners p) /\
    index (histories (st w)) 0 = Some m /\
    index (histories (st w)) (tab (st w)) = Some h.
Proof.
  intros H Ht. destruct (reachable_wellFormed w H) as ((Hv & Hlen & Hobs) & _).
  unfold validTab in Hv.
  destruct (index_in_range (processes (st w)) (tab (st w) - 1)) as [p Hp];
    [lia|].
  destruct (index_in_range (histories (st w)) 0) as [m Hm]; [lia|].
  destruct (index_in_range (histories (st w)) (tab (st w))) as [h Hh];
    [lia|].
  exists p, m, h. split; [exact Hp|]. split; [|split; assumption].
  rewrite index_nth_error in Hp by lia.
  replace (tab (st w)) with (Z.of_nat (Z.to_nat (tab (st w) - 1)) + 1) at 1
    by lia.
  exact (Hobs _ p Hp).
Qed.

(* ================================================================= *)
(** * Further properties *)

(** ** Only mouse reports scroll *)

Lemma lor_shiftl_low (a k : N) :
  (k < 64)%N -> N.lor (N.shiftl a 6) k = (a * 64 + k)%N.
Proof.
  intros Hk.
  assert (Hland : N.land (N.shiftl a 6) k = 0%N).
  { apply N.bits_inj. intros n. rewrite N.land_spec, N.bits_0.
    destruct (N.lt_ge_cases n 6) as [Hn|Hn].
    - now rewrite N.shiftl_spec_low.
    - destruct (N.eq_dec k 0) as [->|Hk0].
      + rewrite N.bits_0. apply andb_false_r.
      + rewrite (N.bits_above_log2 k n); [apply andb_false_r|].
        apply N.lt_le_trans with 6%N; [|exact Hn].
        apply N.log2_lt_pow2; [lia|exact Hk]. }
  rewrite <- N.lxor_lor, <- N.add_nocarry_lxor by exact Hland.
  now rewrite N.shiftl_mul_pow2.
Qed.

Lemma land_low6 (b : N) : N.land b 0x3F = (b mod 64)%N.
Proof. exact (N.land_ones b 6). Qed.

Lemma to_N_inj (a b : byte) : Byte.to_N a = Byte.to_N b -> a = b.
Proof.
  intros H. assert (E : Byte.of_N (Byte.to_N a) = Byte.of_N (Byte.to_N b))
    by now rewrite H.
  rewrite !Byte.of_to_N in E. now injection E.
Qed.

(** A byte met while no sequence is pending is a character of its own,
    or is replaced, or begins a sequence. *)
Lemma lead_cases (b : byte) :
  ((Byte.to_N b <= 0x7F)%N /\
   Utf8.lead (Byte.to_N b) = ([Byte.to_N b], Utf8.idle)) \/
  ((0x80 <= Byte.to_N b)%N /\
   (Utf8.lead (Byte.to_N b) = ([Utf8.replacement], Utf8.idle) \/
    exists d, Utf8.lead (Byte.to_N b) = ([], d) /\ pendingAbove d = true)).
Proof.
  destruct b;
    first [ left; split; [vm_compute; discriminate | reflexivity]
          | right; split; [vm_compute; discriminate|];
            first [ left; reflexivity
                  | right; eexists; split; reflexivity ] ].
Qed.

Lemma pendingAbove_spec (d : Utf8.decoder) :
  pendingAbove d = true ->
  (0x80 <= Utf8.lower d)%N /\ (Utf8.upper d <= 0xBF)%N /\
  ((Utf8.bytes_needed d = 1 /\ 2 <= Utf8.code_point d) \/
   (Utf8.bytes_needed d = 2 /\
      (1 <= Utf8.code_point d \/ Utf8.lower d = 0xA0)) \/
   (Utf8.bytes_needed d = 3 /\
      (1 <= Utf8.code_point d \/ Utf8.lower d = 0x90)))%N.
Proof.
  unfold pendingAbove.
  rewrite !andb_true_iff, !orb_true_iff, !andb_true_iff, !orb_true_iff,
    !N.leb_le, !N.eqb_eq.
  tauto.
Qed.

(** The next byte of a pending sequence: the sequence is given up, or it
    ends in a code point of 0x80 or more, or it stays pending. *)
Lemma feed_pending (d : Utf8.decoder) (b : N) :
  pendingAbove d = true ->
  (exists out d', Utf8.feed d b = (Utf8.replacement :: out, d')) \/
  (exists cp, Utf8.feed d b = ([cp], Utf8.idle) /\ (0x80 <= cp)%N) \/
  (exists d', Utf8.feed d b = ([], d') /\ pendingAbove d' = true).
Proof.
  intros Hd. destruct (pendingAbove_spec d Hd) as (Hlo & Hup & Hcases).
  unfold Utf8.feed.
  replace (Utf8.bytes_needed d =? 0)%N with false
    by (symmetry; apply N.eqb_neq; lia).
  destruct (Utf8.between (Utf8.lower d) (Utf8.upper d) b) eqn:Hb; cbn [negb].
  - unfold Utf8.between in Hb. apply andb_true_iff in Hb.
    rewrite !N.leb_le in Hb. destruct Hb as [Hb1 Hb2].
    rewrite land_low6, lor_shiftl_low by (apply N.mod_lt; discriminate).
    assert (Hmod : (b mod 64 = b - 128)%N).
    { symmetry. apply (N.mod_unique b 64 2); lia. }
    rewrite Hmod. right.
    destruct Hcases as [[Hn Hc]|[[Hn Hc]|[Hn Hc]]]; rewrite Hn.
    + left. eexists. split; [reflexivity|]. lia.
    + right. eexists. split; [reflexivity|].
      unfold pendingAbove. cbn [Utf8.lower Utf8.upper Utf8.bytes_needed
                                Utf8.code_point].
      change (2 - 1)%N with 1%N.
      replace (2 <=? Utf8.code_point d * 64 + (b - 128))%N with true
        by (symmetry; apply N.leb_le; lia).
      reflexivity.
    + right. eexists. split; [reflexivity|].
      unfold pendingAbove. cbn [Utf8.lower Utf8.upper Utf8.bytes_needed
                                Utf8.code_point].
      change (3 - 1)%N with 2%N.
      replace (1 <=? Utf8.code_point d * 64 + (b - 128))%N with true
        by (symmetry; apply N.leb_le; lia).
      reflexivity.
  - left. destruct (Utf8.lead b) as [out d']. eauto.
Qed.

Lemma utf16_head (cp : N) (s : jsstring) (c : N) :
  (0x80 <= cp)%N -> hd_error (Utf8.utf16 cp ++ s) = Some c -> (0x80 <= c)%N.
Proof.
  intros Hcp. unfold Utf8.utf16.
  destruct (cp <? 0x10000)%N; cbn [app hd_error]; intros Hc.
  - now replace c with cp by congruence.
  - set (hi := N.shiftr (cp - 0x10000) 10) in *.
    replace c with (0xD800 + hi)%N by congruence. lia.
Qed.

(** What a pending sequence decodes to begins with a code unit of 0x80 or
    more. *)
Lemma pending_head (bs : Buffer) :
  forall d, pendingAbove d = true ->
  forall c, hd_error (flat_map Utf8.utf16 (Utf8.decode d bs)) = Some c ->
  (0x80 <= c)%N.
Proof.
  induction bs as [|b bs IH]; intros d Hd c Hc.
  - destruct (pendingAbove_spec d Hd) as (_ & _ & Hcases).
    cbn [Utf8.decode] in Hc.
    replace (Utf8.bytes_needed d =? 0)%N with false in Hc
      by (symmetry; apply N.eqb_neq; lia).
    injection Hc as <-. discriminate.
  - cbn [Utf8.decode] in Hc.
    destruct (feed_pending d (Byte.to_N b) Hd)
      as [(out & d' & E)|[(cp & E & Hcp)|(d' & E & Hd')]];
      rewrite E in Hc.
    + injection Hc as <-. discriminate.
    + cbn [app flat_map] in Hc. exact (utf16_head cp _ c Hcp Hc).
    + exact (IH d' Hd' c Hc).
Qed.

Lemma cons_eq {A} (a b : A) (l l' : list A) :
  a :: l = b :: l' -> a = b /\ l = l'.
Proof. intros [= -> ->]. now split. Qed.

Lemma feed_idle (b : N) : Utf8.feed Utf8.idle b = Utf8.lead b.
Proof. reflexivity. Qed.

(** A decoded string that begins with a character below 0x80 comes from a
    buffer that begins with that byte, and the rest decodes to the rest. *)
Lemma toString_first_ascii (data : Buffer) (c : N) (s : jsstring) :
  Utf8.toString data = c :: s -> (c < 0x80)%N ->
  exists b rest,
    data = b :: rest /\ Byte.to_N b = c /\ Utf8.toString rest = s.
Proof.
  destruct data as [|b rest]; [discriminate|].
  unfold Utf8.toString. cbn [Utf8.decode]. rewrite feed_idle.
  intros H Hc.
  destruct (lead_cases b) as [[Hle E]|[Hge [E|(d & E & Hd)]]];
    rewrite E in H; cbn [app flat_map] in H.
  - unfold Utf8.utf16 in H.
    replace (Byte.to_N b <? 0x10000)%N with true in H
      by (symmetry; apply N.ltb_lt; lia).
    cbv iota in H. cbn [app] in H. apply cons_eq in H. exists b, rest.
    split; [reflexivity|]. exact H.
  - change (Utf8.utf16 Utf8.replacement) with [Utf8.replacement] in H.
    cbn [app] in H. apply cons_eq in H. destruct H as [<- _]. discriminate.
  - assert (Hhd : hd_error (flat_map Utf8.utf16 (Utf8.decode d rest)) = Some c)
      by now rewrite H.
    pose proof (pending_head rest d Hd c Hhd). lia.
Qed.

(** X1. A chunk that the decoder takes for a scroll begins with the three
    bytes ESC [ M: no other chunk, whatever its length and its bytes, moves
    the cursor through the scroll handler. *)
Theorem isScrollEvent_only_mouse_reports (data : Buffer) (d : Z) :
  isScrollEvent data = Some d ->
  exists rest, data = x1b :: x5b :: x4d :: rest.
Proof.
  unfold isScrollEvent.
  destruct (matchMouseEvent (Utf8.toString data)) eqn:M; [|discriminate].
  intros _. unfold matchMouseEvent in M.
  destruct (Utf8.toString data) as [|a [|b [|c s]]] eqn:E; try discriminate.
  rewrite !andb_true_iff, !N.eqb_eq in M. destruct M as [[-> ->] ->].
  destruct (toString_first_ascii data _ _ E) as (b1 & r1 & -> & H1 & E1);
    [reflexivity|].
  destruct (toString_first_ascii r1 _ _ E1) as (b2 & r2 & -> & H2 & E2);
    [reflexivity|].
  destruct (toString_first_ascii r2 _ _ E2) as (b3 & r3 & -> & H3 & _);
    [reflexivity|].
  exists r3.
  now rewrite (to_N_inj b1 x1b H1), (to_N_inj b2 x5b H2), (to_N_inj b3 x4d H3).
Qed.

Lemma isScrollEvent_only_mouse_reports_witness :
  isScrollEvent (wheel x61) = Some (-1) /\
  exists rest, wheel x61 = x1b :: x5b :: x4d :: rest.
Proof.
  assert (H : isScrollEvent (wheel x61) = Some (-1)) by reflexivity.
  split; [exact H|].
  exact (isScrollEvent_only_mouse_reports (wheel x61) (-1) H).
Defined.

(** ** What is drawn *)

Lemma view_header (s : state) :
  view s =
  match index (histories s) (tab s) with
  | Some current =>
      Some (header s ++
            slice current (cursor s)
                  (Z.min (cursor s + lines s) (len current)))
  | None => None
  end.
Proof. reflexivity. Qed.

(** [slice] from a start that is not negative, up to [n] elements on. *)
Lemma slice_window {A} (l : list A) (a n : Z) :
  0 <= a -> 0 <= n ->
  slice l a (Z.min (a + n) (len l)) =
  firstn (Z.to_nat n) (skipn (Z.to_nat a) l).
Proof.
  intros Ha Hn. unfold slice. pose proof (len_nonneg l) as Hl.
  destruct (Z.ltb_spec a 0); [lia|].
  destruct (Z.ltb_spec (Z.min (a + n) (len l)) 0); [lia|].
  set (k := Z.min a (len l)).
  set (count := Z.max (Z.min (Z.min (a + n) (len l)) (len l) - k) 0).
  destruct (Z.le_gt_cases a (len l)) as [Hal|Hal].
  - replace k with a by (unfold k; lia).
    destruct (Z.le_gt_cases (a + n) (len l)) as [Hfit|Hcut].
    + replace count with n by (unfold count, k; lia). reflexivity.
    + rewrite (firstn_all2 (n := Z.to_nat n)); [apply firstn_all2|];
        rewrite length_skipn; unfold count, k, len in *; lia.
  - rewrite !skipn_all2 by (unfold k, len in *; lia).
    now rewrite !firstn_nil.
Qed.

Lemma length_slice_le {A} (l : list A) (a n : Z) :
  0 <= n ->
  len (slice l a (Z.min (a + n) (len l))) <= n.
Proof.
  intros Hn. unfold slice. pose proof (len_nonneg l) as Hl.
  set (k := if a <? 0 then _ else _).
  set (final := if _ <? 0 then _ else _).
  unfold len at 1.
  pose proof (firstn_le_length (Z.to_nat (Z.max (final - k) 0))
                               (skipn (Z.to_nat k) l)) as Hf.
  assert (Hfk : final - k <= n).
  { unfold final, k.
    destruct (Z.ltb_spec a 0), (Z.ltb_spec (Z.min (a + n) (len l)) 0); lia. }
  lia.
Qed.

(** X2. A frame never holds more than the four header lines and [lines]
    lines of content, whatever the cursor is (in range or not, negative or
    not), as long as the viewport height is not negative. *)
Theorem view_fits_pane (s : state) (v : list line) :
  0 <= lines s -> view s = Some v -> len v <= 4 + lines s.
Proof.
  intros Hl. rewrite view_header.
  destruct (index (histories s) (tab s)) as [h|]; [|discriminate].
  intros E. apply (f_equal (fun o => match o with Some x => len x | None => 0 end)) in E.
  cbv beta iota in E. rewrite <- E, len_app.
  pose proof (length_slice_le h (cursor s) (lines s) Hl).
  change (len (header s)) with 4. lia.
Qed.

Lemma view_fits_pane_witness :
  0 <= lines threeLines /\
  exists v, view threeLines = Some v /\ len v <= 4 + lines threeLines.
Proof.
  assert (Hl : 0 <= lines threeLines) by (cbn; lia).
  split; [exact Hl|]. eexists. split; [reflexivity|].
  exact (view_fits_pane threeLines _ Hl eq_refl).
Defined.

(** X3. With a cursor and a viewport height that are not negative, the
    content of the frame is the history of the active tab from line
    [cursor] on, [lines] lines of it or as many as there are. *)
Theorem view_window (s : state) (h : list line) :
  index (histories s) (tab s) = Some h ->
  0 <= cursor s -> 0 <= lines s ->
  view s =
  Some (header s ++
        firstn (Z.to_nat (lines s)) (skipn (Z.to_nat (cursor s)) h)).
Proof.
  intros Hh Hc Hl. rewrite view_header, Hh.
  now rewrite slice_window.
Qed.

Lemma view_window_witness :
  index (histories threeLines) (tab threeLines) =
    Some [Text "a"; Text "b"; Text "c"] /\
  0 <= cursor threeLines /\ 0 <= lines threeLines /\
  view threeLines = Some (header threeLines ++ [Text "b"; Text "c"]).
Proof.
  assert (Hh : index (histories threeLines) (tab threeLines) =
               Some [Text "a"; Text "b"; Text "c"]) by reflexivity.
  assert (Hc : 0 <= cursor threeLines) by (cbn; lia).
  assert (Hl : 0 <= lines threeLines) by (cbn; lia).
  split; [exact Hh|]. split; [exact Hc|]. split; [exact Hl|].
  exact (view_window threeLines _ Hh Hc Hl).
Defined.

(** X4. With the cursor at the tail of the active history, the content of
    the frame is the end of that history: its last [lines] lines, or all of
    it when it has fewer. *)
Theorem view_at_tail (s : state) (h : list line) :
  index (histories s) (tab s) = Some h ->
  cursor s = maxCursorOf h (lines s) ->
  0 <= lines s ->
  view s =
  Some (header s ++ skipn (List.length h - Z.to_nat (lines s)) h).
Proof.
  intros Hh Hc Hl. rewrite view_header, Hh.
  rewrite slice_window by (rewrite ?Hc; unfold maxCursorOf; lia).
  do 2 f_equal. rewrite Hc. unfold maxCursorOf, len.
  replace (Z.to_nat (Z.max 0 (Z.of_nat (List.length h) - lines s)))
    with (List.length h - Z.to_nat (lines s))%nat by lia.
  apply firstn_all2. rewrite length_skipn. lia.
Qed.

Lemma view_at_tail_witness :
  index (histories threeLines) (tab threeLines) =
    Some [Text "a"; Text "b"; Text "c"] /\
  cursor threeLines = maxCursorOf [Text "a"; Text "b"; Text "c"]
                                  (lines threeLines) /\
  0 <= lines threeLines /\
  view threeLines = Some (header threeLines ++ [Text "b"; Text "c"]).
Proof.
  assert (Hh : index (histories threeLines) (tab threeLines) =
               Some [Text "a"; Text "b"; Text "c"]) by reflexivity.
  assert (Hc : cursor threeLines =
               maxCursorOf [Text "a"; Text "b"; Text "c"] (lines threeLines))
    by reflexivity.
  assert (Hl : 0 <= lines threeLines) by (cbn; lia).
  split; [exact Hh|]. split; [exact Hc|]. split; [exact Hl|].
  exact (view_at_tail threeLines _ Hh Hc Hl).
Defined.

(** X5. [render] changes nothing of the state, so drawing twice in a row
    writes the same frame twice. *)
Theorem render_twice_same_frame (w : world) :
  validTab (st w) ->
  exists v, view (st w) = Some v /\
    (render ;; render) w =
    (Ret tt, withStdout ((stdout w ++ frame v) ++ frame v) w).
Proof.
  intros Hv. destruct (render_valid w Hv) as (v & Hview & E).
  exists v. split; [exact Hview|].
  unfold bind. rewrite E.
  now rewrite (render_ok (withStdout (stdout w ++ frame v) w) v Hview).
Qed.

Lemma render_twice_same_frame_witness :
  validTab (st watchingChild) /\
  exists v, view (st watchingChild) = Some v /\
    (render ;; render) watchingChild =
    (Ret tt,
     withStdout ((stdout watchingChild ++ frame v) ++ frame v) watchingChild).
Proof.
  assert (H : validTab (st watchingChild)) by (vm_compute; split; congruence).
  split; [exact H|]. exact (render_twice_same_frame watchingChild H).
Defined.

(** ** The log of the main tab *)

(** X6. [print] appends its argument, and nothing else, at the end of the
    main history, leaves every other history, the tab, the cursor and the
    processes as they are, and draws one frame: the cursor does not follow
    the log. *)
Theorem print_appends_to_main (w : world) (data : line) (m : list line) :
  index (histories (st w)) 0 = Some m ->
  validTab (st w) ->
  exists w', print data w = (Ret tt, w') /\
    index (histories (st w')) 0 = Some (m ++ [data]) /\
    (forall j, j <> 0 ->
       index (histories (st w')) j = index (histories (st w)) j) /\
    tab (st w') = tab (st w) /\
    cursor (st w') = cursor (st w) /\
    processes (st w') = processes (st w) /\
    redrawn w w'.
Proof.
  intros Hm Hv. unfold print, push, bind. unfold getState at 1.
  cbv beta iota. rewrite Hm. unfold setHistories, modify. cbv beta iota.
  set (w1 := withState _ w).
  assert (Hv1 : validTab (st w1)).
  { unfold validTab, w1. cbn [st withState tab histories].
    rewrite len_updateAt. exact Hv. }
  destruct (render_valid w1 Hv1) as (v & Hview & ->).
  eexists. split; [reflexivity|].
  unfold w1. cbn [st withState withStdout histories tab cursor processes].
  split; [exact (index_updateAt_same _ 0 (fun h => h ++ [data]) m Hm)|].
  split; [intros j Hj; apply (index_updateAt_other _ 0); lia|].
  split; [reflexivity|]. split; [reflexivity|]. split; [reflexivity|].
  exists v. split; [exact Hview|reflexivity].
Qed.

Lemma print_appends_to_main_witness :
  index (histories (st watchingChild)) 0 =
    Some [Text ("Initialized!" ++ nl)%string] /\
  validTab (st watchingChild) /\
  exists w', print (Text "log") watchingChild = (Ret tt, w') /\
    index (histories (st w')) 0 =
      Some ([Text ("Initialized!" ++ nl)%string] ++ [Text "log"]).
Proof.
  assert (Hm : index (histories (st watchingChild)) 0 =
               Some [Text ("Initialized!" ++ nl)%string])
    by (vm_compute; reflexivity).
  assert (H : validTab (st watchingChild)) by (vm_compute; split; congruence).
  split; [exact Hm|]. split; [exact H|].
  destruct (print_appends_to_main watchingChild (Text "log") _ Hm H)
    as (w' & E & Hm' & _).
  exists w'. split; [exact E|exact Hm'].
Defined.

(** ** Chunks that are no key of the program *)

Lemma scrollHandler_not_scroll (data : Buffer) (w : world) :
  isScrollEvent data = None -> scrollHandler data w = (Ret tt, w).
Proof. intros E. unfold scrollHandler, bind, getState. now rewrite E. Qed.

Lemma terminateHandler_other_key (data : Buffer) (w : world) :
  equals data keys.SIGINT = false -> terminateHandler data w = (Ret tt, w).
Proof. intros E. unfold terminateHandler. now rewrite E. Qed.

(** X7. A chunk from the terminal that is neither the interrupt key, nor an
    arrow, nor a scroll report (the restart key [k] is one such chunk,
    however many restart listeners there are) leaves the state as it is and
    makes the session draw exactly one frame. *)
Theorem unrecognized_chunk_only_redraws (w : world) (data : Buffer) :
  validTab (st w) ->
  equals data keys.SIGINT = false ->
  equals data keys.left = false ->
  equals data keys.right = false ->
  isScrollEvent data = None ->
  exists v, view (st w) = Some v /\
    dispatch (StdinData data) w =
    (Ret tt, withStdout (stdout w ++ frame v) w).
Proof.
  intros Hv Hi Hl Hr Hs. destruct (render_valid w Hv) as (v & Hview & E).
  exists v. split; [exact Hview|].
  unfold dispatch. unfold bind at 1.
  rewrite terminateHandler_other_key by exact Hi. cbv beta iota.
  unfold bind at 1. rewrite arrowHandler_other_key, E by assumption.
  cbv beta iota. unfold bind at 1.
  rewrite scrollHandler_not_scroll by exact Hs. cbv beta iota.
  unfold bind. cbv beta iota. now rewrite restartHandlers_idle.
Qed.

Lemma unrecognized_chunk_only_redraws_witness :
  validTab (st watchingChild) /\
  equals keys.k keys.SIGINT = false /\
  equals keys.k keys.left = false /\
  equals keys.k keys.right = false /\
  isScrollEvent keys.k = None /\
  exists v, view (st watchingChild) = Some v /\
    dispatch (StdinData keys.k) watchingChild =
    (Ret tt, withStdout (stdout watchingChild ++ frame v) watchingChild).
Proof.
  assert (H : validTab (st watchingChild)) by (vm_compute; split; congruence).
  split; [exact H|]. repeat (split; [reflexivity|]).
  exact (unrecognized_chunk_only_redraws watchingChild keys.k H
           eq_refl eq_refl eq_refl eq_refl).
Defined.

(** ** Components that a computation leaves alone *)

Lemma keeps_bind {A B C} (proj : state -> C) (m : M A) (f : A -> M B) :
  keeps proj m -> (forall a, keeps proj (f a)) -> keeps proj (bind m f).
Proof.
  intros Hm Hf w. unfold bind. specialize (Hm w).
  destruct (m w) as [[a|e] w']; cbn [snd] in *; [|exact Hm].
  now rewrite Hf.
Qed.

Lemma keeps_when {C} (proj : state -> C) (b : bool) (m : M unit) :
  keeps proj m -> keeps proj (when b m).
Proof. destruct b; [auto|intros _ w; reflexivity]. Qed.

Lemma keeps_forEach {A C} (proj : state -> C) (l : list A)
      (f : A -> M unit) :
  (forall x, keeps proj (f x)) -> keeps proj (forEach l f).
Proof.
  intros Hf. induction l as [|x l IH]; cbn [forEach].
  - intros w. reflexivity.
  - apply keeps_bind; auto.
Qed.

Lemma keeps_render {C} (proj : state -> C) : keeps proj render.
Proof. intros w. now rewrite render_state. Qed.

(** Breaks a handler into its steps; the steps that only read, write to
    the terminal, throw or set another component are closed by
    computation. *)
Ltac keeps_steps :=
  unfold dispatch, terminateHandler, arrowHandler, scrollHandler,
    restartHandler, updateActiveTab, trackHistoryOf, exitObserver, print,
    push, disableMouseEvents, lengthOf;
  repeat first
    [ apply keeps_bind; [|intros ?]
    | apply keeps_when
    | apply keeps_forEach; intros ?
    | apply keeps_render
    | match goal with
      | |- keeps _ (if ?c then _ else _) => destruct c
      | |- keeps _ (match ?o with Some _ => _ | None => _ end) => destruct o
      end
    | solve [intros ?; reflexivity] ].

Lemma keeps_lines_dispatch (e : event) : keeps lines (dispatch e).
Proof. destruct e; keeps_steps. Qed.

Lemma keeps_histories_updateActiveTab (i : nat) :
  keeps histories (updateActiveTab i).
Proof. keeps_steps. Qed.

Lemma keeps_histories_arrowHandler (data : Buffer) :
  keeps histories (arrowHandler data).
Proof. keeps_steps. Qed.

Lemma keeps_processes_arrowHandler (data : Buffer) :
  keeps processes (arrowHandler data).
Proof. keeps_steps. Qed.

Lemma keeps_lines_arrowHandler (data : Buffer) :
  keeps lines (arrowHandler data).
Proof. keeps_steps. Qed.

(** X11. Whatever the chunk and the state, and whether it returns or
    throws, the arrow handler leaves the viewport height, the processes and
    every history as they are: navigation moves the view, never the
    data. *)
Theorem arrowHandler_frame (w : world) (data : Buffer) :
  let w' := snd (arrowHandler data w) in
  lines (st w') = lines (st w) /\
  processes (st w') = processes (st w) /\
  histories (st w') = histories (st w).
Proof.
  split; [apply keeps_lines_arrowHandler|].
  split; [apply keeps_processes_arrowHandler|apply keeps_histories_arrowHandler].
Qed.

(** ** Output of the children *)

(** X8. Output of a child whose tab is not the one shown is stored in its
    history and changes nothing else: nothing is drawn, the cursor and the
    tab stay, and every other history is as it was. *)
Theorem background_output_is_silent (w : world) (i : nat) (data : Buffer) :
  Z.of_nat i + 1 <> tab (st w) ->
  exists w', dispatch (ChildData i data) w = (Ret tt, w') /\
    silent w w' /\
    tab (st w') = tab (st w) /\
    cursor (st w') = cursor (st w) /\
    processes (st w') = processes (st w) /\
    histories (st w') =
      updateAt (S i) (fun h => trackHistory sessionRetention h (Chunk data))
               (histories (st w)) /\
    (forall j, j <> Z.of_nat i + 1 ->
       index (histories (st w')) j = index (histories (st w)) j).
Proof.
  intros Hi. eexists. split.
  - unfold dispatch, trackHistoryOf, updateActiveTab, bind, getState,
      setHistories, modify.
    cbn [st withState tab lines processes histories cursor].
    replace (Z.of_nat i + 1 =? tab (st w)) with false
      by (symmetry; now apply Z.eqb_neq).
    reflexivity.
  - cbn [st withState tab lines processes histories cursor].
    split; [reflexivity|]. split; [reflexivity|]. split; [reflexivity|].
    split; [reflexivity|]. split; [reflexivity|].
    intros j Hj. replace (S i) with (Z.to_nat (Z.of_nat i + 1)) by lia.
    apply index_updateAt_other; lia.
Qed.

Lemma background_output_is_silent_witness :
  Z.of_nat 0 + 1 <> tab (st (viewProcessesInTabs 1)) /\
  exists w',
    dispatch (ChildData 0 [x61]) (viewProcessesInTabs 1) = (Ret tt, w') /\
    silent (viewProcessesInTabs 1) w'.
Proof.
  assert (H : Z.of_nat 0 + 1 <> tab (st (viewProcessesInTabs 1)))
    by (vm_compute; discriminate).
  split; [exact H|].
  destruct (background_output_is_silent (viewProcessesInTabs 1) 0 [x61] H)
    as (w' & E & Hs & _).
  exists w'. split; [exact E|exact Hs].
Defined.

Lemma skipn_suffix {A} (n : nat) (l : list A) :
  exists old, l = old ++ skipn n l.
Proof. exists (firstn n l). now rewrite firstn_skipn. Qed.

(** X9. Whatever a child's history held before (the notes of the interrupt
    key can take it above the retention), and whichever tab is shown, one
    chunk of output from the child leaves it with at most 1000 entries, the
    chunk at its end and nothing but older entries dropped from the
    front. *)
Theorem child_output_restores_retention (w : world) (i : nat)
        (data : Buffer) (h : list line) :
  index (histories (st w)) (Z.of_nat i + 1) = Some h ->
  let w' := snd (dispatch (ChildData i data) w) in
  exists h',
    index (histories (st w')) (Z.of_nat i + 1) = Some h' /\
    len h' <= sessionRetention /\
    (exists old, h ++ [Chunk data] = old ++ h') /\
    last h' (Chunk data) = Chunk data /\
    h' <> [].
Proof.
  intros Hh w'.
  set (h' := trackHistory sessionRetention h (Chunk data)).
  assert (E : histories (st w') =
              updateAt (S i)
                (fun h => trackHistory sessionRetention h (Chunk data))
                (histories (st w))).
  { unfold w', dispatch, bind.
    unfold trackHistoryOf at 1, bind, getState, setHistories, modify.
    cbv beta iota.
    now rewrite (keeps_histories_updateActiveTab i). }
  assert (Hstep : h' = skipn (List.length (h ++ [Chunk data]) -
                              Z.to_nat sessionRetention) (h ++ [Chunk data]))
    by (apply trackHistory_step; discriminate).
  exists h'. split.
  { rewrite E. replace (S i) with (Z.to_nat (Z.of_nat i + 1)) by lia.
    exact (index_updateAt_same _ _
             (fun h => trackHistory sessionRetention h (Chunk data)) _ Hh). }
  assert (Hlen : (List.length (h ++ [Chunk data]) =
                  S (List.length h))%nat)
    by (rewrite length_app; cbn; lia).
  assert (Hsplit : skipn (List.length (h ++ [Chunk data]) -
                          Z.to_nat sessionRetention) (h ++ [Chunk data]) =
                   skipn (List.length (h ++ [Chunk data]) -
                          Z.to_nat sessionRetention) h ++ [Chunk data]).
  { rewrite skipn_app.
    replace (List.length (h ++ [Chunk data]) - Z.to_nat sessionRetention
             - List.length h)%nat with O
      by (rewrite Hlen; change (Z.to_nat sessionRetention) with 1000%nat; lia).
    reflexivity. }
  split; [|split; [|split]].
  - rewrite Hstep. unfold len. rewrite length_skipn.
    change sessionRetention with 1000. lia.
  - rewrite Hstep. apply skipn_suffix.
  - rewrite Hstep, Hsplit. apply last_last.
  - rewrite Hstep, Hsplit. intros Hnil. now destruct (skipn _ h).
Qed.

Lemma child_output_restores_retention_witness :
  index (histories (st (viewProcessesInTabs 1))) (Z.of_nat 0 + 1) = Some [] /\
  exists h',
    index (histories
             (st (snd (dispatch (ChildData 0 [x61])
                                (viewProcessesInTabs 1)))))
          (Z.of_nat 0 + 1) = Some h' /\
    len h' <= sessionRetention.
Proof.
  assert (H : index (histories (st (viewProcessesInTabs 1))) (Z.of_nat 0 + 1)
              = Some []) by reflexivity.
  split; [exact H|].
  destruct (child_output_restores_retention (viewProcessesInTabs 1) 0
              [x61] [] H) as (h' & E & Hlen & _).
  exists h'. split; [exact E|exact Hlen].
Defined.

(** ** The interrupt key on the tab of a child *)

(** X10. On the tab [t] of a child the interrupt key is for that child
    alone: the session keeps running on the same tab with the same cursor,
    every other process is as it was (no signal, no observer), and so is
    every history but the one of tab [t]. *)
Theorem interrupt_on_child_spares_the_others (w : world) (t : Z)
        (p : ChildProcess) (h : list line) :
  session w = Running ->
  tab (st w) = t ->
  0 < t ->
  index (processes (st w)) (t - 1) = Some p ->
  index (histories (st w)) t = Some h ->
  let w1 := handle w (StdinData keys.SIGINT) in
  session w1 = Running /\
  tab (st w1) = t /\
  cursor (st w1) = cursor (st w) /\
  lines (st w1) = lines (st w) /\
  (forall j, j <> t - 1 ->
     index (processes (st w1)) j = index (processes (st w)) j) /\
  (forall j, j <> t ->
     index (histories (st w1)) j = index (histories (st w)) j).
Proof.
  intros Hs Htab Ht Hp Hh w1.
  destruct (dispatch_interrupt_child w t p h Htab Ht Hp Hh) as (v & E).
  assert (E1 : w1 = snd (dispatch (StdinData keys.SIGINT) w)).
  { unfold w1, handle, deliverable. rewrite Hs, E. reflexivity. }
  rewrite E1, E.
  cbn [snd st withState withStdout session tab cursor lines processes
       histories].
  split; [exact Hs|]. split; [exact Htab|].
  split; [reflexivity|]. split; [reflexivity|]. split.
  - intros j Hj. rewrite !index_updateAt_other by lia. reflexivity.
  - intros j Hj. rewrite index_updateAt_other by lia. reflexivity.
Qed.

Lemma interrupt_on_child_spares_the_others_witness :
  session watchingChild = Running /\
  tab (st watchingChild) = 1 /\
  0 < 1 /\
  index (processes (st watchingChild)) (1 - 1) = Some spawn /\
  index (histories (st watchingChild)) 1 = Some (repeat (Chunk [x61]) 30) /\
  session (handle watchingChild (StdinData keys.SIGINT)) = Running.
Proof.
  assert (Hs : session watchingChild = Running) by (vm_compute; reflexivity).
  assert (Htab : tab (st watchingChild) = 1) by (vm_compute; reflexivity).
  assert (Ht : 0 < 1) by lia.
  assert (Hp : index (processes (st watchingChild)) (1 - 1) = Some spawn)
    by (vm_compute; reflexivity).
  assert (Hh : index (histories (st watchingChild)) 1 =
               Some (repeat (Chunk [x61]) 30)) by (vm_compute; reflexivity).
  repeat (split; [assumption|]).
  exact (proj1 (interrupt_on_child_spares_the_others watchingChild 1 spawn _
                  Hs Htab Ht Hp Hh)).
Defined.

(** ** Going round the tabs *)

Lemma arrows_right (k : nat) :
  forall w, validTab (st w) ->
  exists w', forEach (repeat keys.right k) arrowHandler w = (Ret tt, w') /\
    histories (st w') = histories (st w) /\
    tab (st w') = (tab (st w) + Z.of_nat k) mod len (histories (st w)).
Proof.
  induction k as [|k IH]; intros w Hv.
  - exists w. split; [reflexivity|]. split; [reflexivity|].
    rewrite Z.add_0_r. symmetry. apply Z.mod_small. exact Hv.
  - destruct (arrowHandler_right w Hv) as (h' & v & _ & _ & E).
    match type of E with _ = (_, ?x) => set (w1 := x) in E end.
    assert (Hh1 : histories (st w1) = histories (st w)) by reflexivity.
    assert (Ht1 : tab (st w1) =
                  (tab (st w) + 1) mod len (histories (st w)))
      by (apply rem_right_mod; exact Hv).
    assert (Hv1 : validTab (st w1)).
    { unfold validTab. rewrite Hh1, Ht1. apply Z.mod_pos_bound.
      unfold validTab in Hv. lia. }
    destruct (IH w1 Hv1) as (w' & E' & Hh' & Ht').
    exists w'. cbn [repeat forEach]. unfold bind. rewrite E.
    split; [exact E'|]. split; [congruence|].
    rewrite Ht', Hh1, Ht1, Zplus_mod_idemp_l. f_equal. lia.
Qed.

Lemma arrows_left (k : nat) :
  forall w, validTab (st w) ->
  exists w', forEach (repeat keys.left k) arrowHandler w = (Ret tt, w') /\
    histories (st w') = histories (st w) /\
    tab (st w') = (tab (st w) - Z.of_nat k) mod len (histories (st w)).
Proof.
  induction k as [|k IH]; intros w Hv.
  - exists w. split; [reflexivity|]. split; [reflexivity|].
    rewrite Z.sub_0_r. symmetry. apply Z.mod_small. exact Hv.
  - destruct (index_in_range _ _ Hv) as [h Hh].
    destruct (arrowHandler_left w h Hh) as (v & _ & E).
    match type of E with _ = (_, ?x) => set (w1 := x) in E end.
    assert (Hh1 : histories (st w1) = histories (st w)) by reflexivity.
    assert (Ht1 : tab (st w1) =
                  (tab (st w) - 1) mod len (histories (st w)))
      by (apply rem_left_mod; exact Hv).
    assert (Hv1 : validTab (st w1)).
    { unfold validTab. rewrite Hh1, Ht1. apply Z.mod_pos_bound.
      unfold validTab in Hv. lia. }
    destruct (IH w1 Hv1) as (w' & E' & Hh' & Ht').
    exists w'. cbn [repeat forEach]. unfold bind. rewrite E.
    split; [exact E'|]. split; [congruence|].
    rewrite Ht', Hh1, Ht1, Zminus_mod_idemp_l. f_equal. lia.
Qed.

(** X12. [k] right arrows in a row move the active tab [k] places forward
    and [k] left arrows [k] places back, counted modulo the number of tabs;
    as many arrows as there are tabs, in either direction, come back to the
    tab they started from. *)
Theorem arrows_go_round (w : world) (k : nat) :
  validTab (st w) ->
  let n := len (histories (st w)) in
  (exists w', forEach (repeat keys.right k) arrowHandler w = (Ret tt, w') /\
     tab (st w') = (tab (st w) + Z.of_nat k) mod n) /\
  (exists w', forEach (repeat keys.left k) arrowHandler w = (Ret tt, w') /\
     tab (st w') = (tab (st w) - Z.of_nat k) mod n) /\
  (Z.of_nat k = n ->
   (exists w', forEach (repeat keys.right k) arrowHandler w = (Ret tt, w') /\
      tab (st w') = tab (st w)) /\
   (exists w', forEach (repeat keys.left k) arrowHandler w = (Ret tt, w') /\
      tab (st w') = tab (st w))).
Proof.
  intros Hv n.
  destruct (arrows_right k w Hv) as (wr & Er & _ & Hr).
  destruct (arrows_left k w Hv) as (wl & El & _ & Hl).
  fold n in Hr, Hl. unfold validTab in Hv. fold n in Hv.
  split; [exists wr; split; assumption|].
  split; [exists wl; split; assumption|].
  intros Hk. split.
  - exists wr. split; [exact Er|]. rewrite Hr, Hk.
    rewrite <- (Z.mul_1_l n) at 1. rewrite Z.mod_add by lia.
    apply Z.mod_small. exact Hv.
  - exists wl. split; [exact El|]. rewrite Hl, Hk.
    replace (tab (st w) - n) with (tab (st w) + (-1) * n) by lia.
    rewrite Z.mod_add by lia. apply Z.mod_small. exact Hv.
Qed.

Lemma arrows_go_round_witness :
  validTab (st watchingChild) /\
  exists w',
    forEach (repeat keys.right 2) arrowHandler watchingChild = (Ret tt, w') /\
    tab (st w') = tab (st watchingChild).
Proof.
  assert (H : validTab (st watchingChild)) by (vm_compute; split; congruence).
  split; [exact H|].
  assert (Hk : Z.of_nat 2 = len (histories (st watchingChild)))
    by (vm_compute; reflexivity).
  exact (proj1 (proj2 (proj2 (arrows_go_round watchingChild 2 H)) Hk)).
Defined.

(** ** The session from its start *)

Lemma start_world (n : nat) :
  let s := mkState 0 sessionLines (repeat spawn n)
             ([Text ("Initialized!" ++ nl)%string] :: repeat [] n) 0 in
  exists v, view s = Some v /\
    viewProcessesInTabs n =
    mkWorld s
      ([Write (Text (esc ++ "[?1005h")%string);
        Write (Text (esc ++ "[?1003h")%string)] ++ frame v ++ frame v)
      0 None Running.
Proof.
  intros s.
  assert (Hh : index (histories s) (tab s) =
               Some [Text ("Initialized!" ++ nl)%string]) by reflexivity.
  destruct (view_defined s _ Hh) as [v Hv]. exists v. split; [exact Hv|].
  unfold viewProcessesInTabs, print, push, bind. unfold getState at 1.
  cbv beta iota.
  change (index (histories (st (setup n))) 0) with (Some (@nil line)).
  cbv beta iota. unfold setHistories, modify.
  set (w1 := withState _ (setup n)).
  assert (Hv1 : view (st w1) = Some v) by exact Hv.
  rewrite (render_ok w1 v Hv1).
  rewrite (render_ok (withStdout (stdout w1 ++ frame v) w1) v Hv1).
  cbn [snd]. unfold withStdout. cbn [st restartListeners exitCode session
                                     stdout].
  reflexivity.
Qed.

Lemma start_state (n : nat) :
  st (viewProcessesInTabs n) =
  mkState 0 sessionLines (repeat spawn n)
          ([Text ("Initialized!" ++ nl)%string] :: repeat [] n) 0.
Proof. destruct (start_world n) as (v & _ & ->). reflexivity. Qed.

(** X16. For any number [n] of commands, [viewProcessesInTabs] leaves a
    running session on the main tab, with cursor 0 and a viewport of 20
    lines, [n] fresh processes, a main history that holds the one line
    "Initialized!" and [n] empty histories; on the terminal it has enabled
    the mouse reports and drawn the same frame twice. *)
Theorem viewProcessesInTabs_start (n : nat) :
  st (viewProcessesInTabs n) =
    mkState 0 20 (repeat spawn n)
            ([Text ("Initialized!" ++ nl)%string] :: repeat [] n) 0 /\
  session (viewProcessesInTabs n) = Running /\
  restartListeners (viewProcessesInTabs n) = 0%nat /\
  exists v, view (st (viewProcessesInTabs n)) = Some v /\
    stdout (viewProcessesInTabs n) =
    [Write (Text (esc ++ "[?1005h")%string);
     Write (Text (esc ++ "[?1003h")%string)] ++ frame v ++ frame v.
Proof.
  destruct (start_world n) as (v & Hv & ->). cbn [st session restartListeners
                                                  stdout].
  split; [reflexivity|]. split; [reflexivity|]. split; [reflexivity|].
  exists v. split; [exact Hv|reflexivity].
Qed.

Lemma evolves_refl (s : state) : evolves s s.
Proof.
  split; [auto|]. intros m Hm. exists []. now rewrite app_nil_r.
Qed.

Lemma evolves_trans (s1 s2 s3 : state) :
  evolves s1 s2 -> evolves s2 s3 -> evolves s1 s3.
Proof.
  intros [Hc1 Hm1] [Hc2 Hm2]. split; [auto|].
  intros m Hm. destruct (Hm1 m Hm) as [x Hx]. destruct (Hm2 _ Hx) as [y Hy].
  exists (x ++ y). now rewrite app_assoc.
Qed.

(** A later state with the same histories and a cursor that is not
    negative when the one before was not. *)
Lemma evolves_same_histories (s s' : state) :
  histories s' = histories s -> (0 <= cursor s -> 0 <= cursor s') ->
  evolves s s'.
Proof.
  intros Hh Hc. split; [exact Hc|]. intros m Hm. exists [].
  now rewrite Hh, app_nil_r.
Qed.

Lemma advances_bind {A B} (m : M A) (f : A -> M B) :
  safe m -> advances m -> (forall a, advances (f a)) -> advances (bind m f).
Proof.
  intros Hs Hm Hf w Hw Hse. unfold bind.
  destruct (Hs w Hw Hse) as (Hw' & _ & Hse'). specialize (Hm w Hw Hse).
  destruct (m w) as [[a|e] w']; cbn [fst snd] in *; [|exact Hm].
  exact (evolves_trans _ _ _ Hm (Hf a w' Hw' Hse')).
Qed.

Lemma advances_ret {A} (a : A) : advances (ret a).
Proof. intros w _ _. apply evolves_refl. Qed.

Lemma advances_render : advances render.
Proof. intros w _ _. rewrite render_state. apply evolves_refl. Qed.

Lemma advances_terminateHandler (data : Buffer) :
  advances (terminateHandler data).
Proof.
  intros w (Hv & Hlen & Hobs) Hs.
  destruct (equals data keys.SIGINT) eqn:E.
  2:{ rewrite terminateHandler_other_key by exact E. apply evolves_refl. }
  apply equals_eq in E. subst data.
  destruct (Z.eq_dec (tab (st w)) 0) as [H0|H0].
  - rewrite (terminateHandler_main w H0). cbn [snd st].
    apply evolves_same_histories; auto.
  - unfold validTab in Hv.
    assert (Ht : 0 < tab (st w)) by lia.
    destruct (index_in_range (processes (st w)) (tab (st w) - 1)) as [p Hp];
      [lia|].
    destruct (index_in_range (histories (st w)) (tab (st w))) as [h Hh];
      [lia|].
    destruct (terminateHandler_child w _ p h eq_refl Ht Hp Hh)
      as (v & _ & ->).
    cbn [snd st withState withStdout]. split; [auto|].
    intros m Hm. exists []. cbn [histories].
    rewrite index_updateAt_other by lia. now rewrite app_nil_r.
Qed.

Lemma advances_arrowHandler (data : Buffer) : advances (arrowHandler data).
Proof.
  intros w Hw Hs. pose proof (proj1 Hw) as Hv.
  destruct (equals data keys.left) eqn:El;
    [|destruct (equals data keys.right) eqn:Er].
  - apply equals_eq in El. subst data.
    destruct (index_in_range _ _ Hv) as [h Hh].
    destruct (arrowHandler_left w h Hh) as (v & _ & ->).
    apply evolves_same_histories; [reflexivity|].
    intros _. cbn. unfold maxCursorOf. lia.
  - apply equals_eq in Er. subst data.
    destruct (arrowHandler_right w Hv) as (h' & v & _ & _ & ->).
    apply evolves_same_histories; [reflexivity|].
    intros _. cbn. unfold maxCursorOf. lia.
  - rewrite arrowHandler_other_key by assumption.
    exact (advances_render w Hw Hs).
Qed.

Lemma advances_scrollHandler (data : Buffer) : advances (scrollHandler data).
Proof.
  intros w Hw Hs. pose proof (proj1 Hw) as Hv.
  destruct (index_in_range _ _ Hv) as [h Hh].
  destruct (isScrollEvent data) as [d|] eqn:E.
  - destruct (scrollHandler_direction w data d h Hh E) as (v & _ & ->).
    cbn [snd]. unfold maxCursorOf.
    set (c' := if d =? -1 then _ else _).
    assert (Hc' : 0 <= cursor (st w) -> 0 <= c')
      by (unfold c'; destruct (d =? -1); lia).
    destruct (c' =? cursor (st w));
      apply evolves_same_histories; auto.
  - rewrite scrollHandler_not_scroll by exact E. apply evolves_refl.
Qed.

Lemma advances_trackHistoryOf (retention : Z) (i : nat) (data : line) :
  advances (trackHistoryOf retention i data).
Proof.
  intros w _ _. unfold trackHistoryOf, bind, getState, setHistories, modify.
  cbn [snd st withState]. split; [auto|].
  intros m Hm. exists []. cbn [histories].
  replace (S i) with (Z.to_nat (Z.of_nat i + 1)) by lia.
  rewrite index_updateAt_other by lia. now rewrite app_nil_r.
Qed.

Lemma advances_updateActiveTab (i : nat) : advances (updateActiveTab i).
Proof.
  intros w Hw _. pose proof (proj1 Hw) as Hv.
  apply evolves_same_histories;
    [apply keeps_histories_updateActiveTab|].
  intros Hc. unfold updateActiveTab, bind, getState.
  destruct (Z.eqb_spec (Z.of_nat i + 1) (tab (st w))) as [Hi|_];
    [|exact Hc].
  destruct (index_in_range _ _ Hv) as [h Hh]. rewrite Hi, Hh.
  unfold lengthOf, ret. cbv beta iota.
  destruct (_ >? _); unfold when, setCursor, modify; cbv beta iota.
  - rewrite render_state. cbn. lia.
  - exact Hc.
Qed.

Lemma advances_childExit (i : nat) : advances (dispatch (ChildExit i)).
Proof.
  intros w (Hv & Hlen & Hobs) Hs.
  destruct (nth_error (processes (st w)) i) as [p|] eqn:Hp.
  2:{ unfold dispatch, bind, getState, setProcesses, modify.
      cbv beta iota. rewrite Hp. cbn [snd ret].
      apply evolves_same_histories; auto. }
  assert (Hi : (i < List.length (processes (st w)))%nat)
    by (apply nth_error_Some; congruence).
  unfold len in Hlen.
  destruct (index_in_range (histories (st w)) 0) as [m Hm];
    [unfold len; lia|].
  destruct (index_in_range (histories (st w)) (Z.of_nat i + 1)) as [h Hh];
    [unfold len; lia|].
  destruct (dispatch_childExit w i p (Z.of_nat i + 1) m h Hp ltac:(lia)
              (Hobs i p Hp) Hm Hh Hv)
    as (w' & E & Hm' & _ & _ & _ & _ & Hcur & _).
  rewrite E. cbn [snd]. split; [rewrite Hcur; auto|].
  intros m0 Hm0. rewrite Hm in Hm0. injection Hm0 as <-. eauto.
Qed.

Lemma advances_dispatch (e : event) : advances (dispatch e).
Proof.
  destruct e as [data|i data|i].
  - cbn [dispatch].
    apply advances_bind;
      [apply safe_terminateHandler|apply advances_terminateHandler|intros _].
    apply advances_bind;
      [apply safe_arrowHandler|apply advances_arrowHandler|intros _].
    apply advances_bind;
      [apply safe_scrollHandler|apply advances_scrollHandler|intros _].
    intros w _ _. unfold bind. cbv beta iota.
    rewrite restartHandlers_idle. apply evolves_refl.
  - cbn [dispatch].
    apply advances_bind;
      [apply safe_trackHistoryOf|apply advances_trackHistoryOf|intros _].
    apply advances_updateActiveTab.
  - apply advances_childExit.
Qed.

Lemma handle_evolves (w : world) (e : event) :
  wellFormed (st w) -> session w <> Crashed ->
  evolves (st w) (st (handle w e)).
Proof.
  intros Hw Hs. unfold handle.
  destruct (deliverable e w); [|apply evolves_refl].
  pose proof (advances_dispatch e w Hw Hs) as H.
  destruct (dispatch e w) as [[a|[|]] w']; exact H.
Qed.

Lemma run_evolves (es : list event) :
  forall w, wellFormed (st w) -> session w <> Crashed ->
  evolves (st w) (st (run w es)).
Proof.
  induction es as [|e es IH]; intros w Hw Hs; [apply evolves_refl|].
  unfold run. cbn [fold_left].
  destruct (handle_wellFormed w e Hw Hs) as [Hw' Hs'].
  exact (evolves_trans _ _ _ (handle_evolves w e Hw Hs) (IH _ Hw' Hs')).
Qed.

Lemma handle_lines (w : world) (e : event) :
  lines (st (handle w e)) = lines (st w).
Proof.
  unfold handle. destruct (deliverable e w); [|reflexivity].
  pose proof (keeps_lines_dispatch e w) as H.
  destruct (dispatch e w) as [[a|[|]] w']; exact H.
Qed.

Lemma run_lines (es : list event) :
  forall w, lines (st (run w es)) = lines (st w).
Proof.
  induction es as [|e es IH]; intros w; [reflexivity|].
  unfold run. cbn [fold_left]. fold (run (handle w e) es).
  now rewrite IH, handle_lines.
Qed.

(** X13. In every world that a session reaches, whatever the events were:
    the active tab is one of the tabs, there is one history for the main
    tab and one per process, no handler has thrown, and no handler throws
    on the next event either. *)
Theorem session_never_throws (w : world) :
  reachable w ->
  validTab (st w) /\
  len (histories (st w)) = len (processes (st w)) + 1 /\
  session w <> Crashed /\
  forall e, fst (dispatch e w) <> Abort TypeError.
Proof.
  intros H. destruct (reachable_wellFormed w H) as [Hw Hs].
  split; [exact (proj1 Hw)|]. split; [exact (proj1 (proj2 Hw))|].
  split; [exact Hs|].
  intros e. exact (proj1 (proj2 (safe_dispatch e w Hw Hs))).
Qed.

Lemma session_never_throws_witness :
  reachable watchingChild /\ session watchingChild <> Crashed.
Proof.
  split; [exact reachable_watchingChild|].
  exact (proj1 (proj2 (proj2
           (session_never_throws watchingChild reachable_watchingChild)))).
Defined.

(** X14. In every world that a session reaches the cursor is not negative
    and the viewport height is the 20 lines it was given at the start. *)
Theorem session_cursor_never_negative (w : world) :
  reachable w -> 0 <= cursor (st w) /\ lines (st w) = 20.
Proof.
  intros (n & es & ->).
  destruct (wellFormed_start n) as [Hw Hs].
  destruct (run_evolves es _ Hw Hs) as [Hc _].
  rewrite run_lines. rewrite start_state in *.
  split; [apply Hc; cbn; lia|reflexivity].
Qed.

Lemma session_cursor_never_negative_witness :
  reachable scrolledBack /\ 0 <= cursor (st scrolledBack).
Proof.
  assert (H : reachable scrolledBack)
    by (apply reachable_handle, reachable_watchingChild).
  split; [exact H|].
  exact (proj1 (session_cursor_never_negative scrolledBack H)).
Defined.

(** X15. The main history is a log: in every world that a session reaches
    it begins with the line "Initialized!", and whatever events follow, it
    is still there with, at most, more lines at its end; nothing is ever
    removed from it or changed in it. *)
Theorem main_history_only_grows (w : world) :
  reachable w ->
  exists m,
    index (histories (st w)) 0 =
      Some (Text ("Initialized!" ++ nl)%string :: m) /\
    forall es, exists more,
      index (histories (st (run w es))) 0 =
        Some ((Text ("Initialized!" ++ nl)%string :: m) ++ more).
Proof.
  intros H. destruct (reachable_wellFormed w H) as [Hw Hs].
  destruct H as (n & es0 & ->).
  destruct (wellFormed_start n) as [Hw0 Hs0].
  destruct (run_evolves es0 _ Hw0 Hs0) as [_ Hm0].
  destruct (Hm0 [Text ("Initialized!" ++ nl)%string]) as [m Hm];
    [now rewrite start_state|].
  exists m. split; [exact Hm|].
  intros es. destruct (run_evolves es _ Hw Hs) as [_ Hgrow].
  exact (Hgrow _ Hm).
Qed.

Lemma main_history_only_grows_witness :
  reachable watchingChild /\
  exists m,
    index (histories (st watchingChild)) 0 =
      Some (Text ("Initialized!" ++ nl)%string :: m).
Proof.
  split; [exact reachable_watchingChild|].
  destruct (main_history_only_grows watchingChild reachable_watchingChild)
    as (m & Hm & _).
  exists m. exact Hm.
Defined.

(** ** The exit of a child that was not interrupted *)

(** X17. The exit of a child on which no exit observer was registered (the
    interrupt key was never pressed on its tab) is recorded on the process
    and has no other effect: no history gets a line, nothing is drawn, no
    restart listener is added. *)
Theorem unobserved_exit_is_silent (w : world) (i : nat) (p : ChildProcess) :
  nth_error (processes (st w)) i = Some p ->
  exitListeners p = [] ->
  exists w', dispatch (ChildExit i) w = (Ret tt, w') /\
    silent w w' /\
    histories (st w') = histories (st w) /\
    tab (st w') = tab (st w) /\
    cursor (st w') = cursor (st w) /\
    restartListeners w' = restartListeners w /\
    processes (st w') = updateAt i reportExit (processes (st w)) /\
    nth_error (processes (st w')) i = Some (reportExit p).
Proof.
  intros Hp Hobs. eexists. split.
  - unfold dispatch, bind, getState, setProcesses, modify. cbv beta iota.
    rewrite Hp, Hobs. reflexivity.
  - cbn [st withState tab cursor histories processes restartListeners].
    repeat (split; [reflexivity|]).
    exact (nth_error_updateAt_same i reportExit _ p Hp).
Qed.

Lemma unobserved_exit_is_silent_witness :
  nth_error (processes (st (viewProcessesInTabs 1))) 0 = Some spawn /\
  exitListeners spawn = [] /\
  exists w',
    dispatch (ChildExit 0) (viewProcessesInTabs 1) = (Ret tt, w') /\
    silent (viewProcessesInTabs 1) w'.
Proof.
  assert (Hp : nth_error (processes (st (viewProcessesInTabs 1))) 0
               = Some spawn) by reflexivity.
  assert (Ho : exitListeners spawn = []) by reflexivity.
  split; [exact Hp|]. split; [exact Ho|].
  destruct (unobserved_exit_is_silent (viewProcessesInTabs 1) 0 spawn Hp Ho)
    as (w' & E & Hs & _).
  exists w'. split; [exact E|exact Hs].
Defined.

(* ================================================================= *)
(** * The history of a child and the scroll, in a session *)

Lemma trackHistory_fold_any (retention : Z) (ds h : list line) :
  0 <= retention -> ds <> [] ->
  fold_left (trackHistory retention) ds h =
  skipn (List.length (h ++ ds) - Z.to_nat retention) (h ++ ds).
Proof.
  intros HR Hds. destruct ds as [|d ds]; [congruence|]. cbn [fold_left].
  rewrite trackHistory_fold.
  - rewrite trackHistory_step by assumption.
    rewrite skipn_last_app. now rewrite <- app_assoc.
  - assumption.
  - rewrite trackHistory_step by assumption.
    rewrite skipn_skipn, length_skipn. f_equal. lia.
Qed.

Lemma updateActiveTab_session (i : nat) (w : world) :
  session (snd (updateActiveTab i w)) = session w.
Proof.
  unfold updateActiveTab, bind, getState.
  destruct (_ =? _); [|reflexivity].
  unfold lengthOf. destruct (index _ _); [|reflexivity].
  unfold ret. cbv beta iota.
  destruct (_ >? _); unfold when, setCursor, modify; cbv beta iota;
    [|reflexivity].
  now rewrite (proj2 (proj2 (render_keeps _))).
Qed.

(** One chunk of output of [processes[i]], through the event loop. *)
Lemma handle_childData (w : world) (i : nat) (data : Buffer)
      (h : list line) :
  wellFormed (st w) -> session w = Running ->
  index (histories (st w)) (Z.of_nat i + 1) = Some h ->
  let w' := handle w (ChildData i data) in
  wellFormed (st w') /\ session w' = Running /\
  index (histories (st w')) (Z.of_nat i + 1) =
    Some (trackHistory sessionRetention h (Chunk data)).
Proof.
  intros Hw Hs Hh w'.
  assert (Hi : (i < List.length (processes (st w)))%nat).
  { destruct Hw as (_ & Hlen & _).
    pose proof (index_Some_range _ _ _ Hh). unfold len in *. lia. }
  assert (Hrun : session w <> Crashed) by (rewrite Hs; discriminate).
  destruct (safe_dispatch (ChildData i data) w Hw Hrun) as (Hw' & Ho & _).
  assert (Hhs : histories (st (snd (dispatch (ChildData i data) w))) =
                updateAt (S i)
                  (fun h => trackHistory sessionRetention h (Chunk data))
                  (histories (st w))).
  { unfold dispatch, bind.
    unfold trackHistoryOf at 1, bind, getState, setHistories, modify.
    cbv beta iota. now rewrite (keeps_histories_updateActiveTab i). }
  assert (Hse : session (snd (dispatch (ChildData i data) w)) = Running).
  { unfold dispatch, bind.
    unfold trackHistoryOf at 1, bind, getState, setHistories, modify.
    cbv beta iota. now rewrite updateActiveTab_session. }
  assert (E : w' = snd (dispatch (ChildData i data) w)).
  { unfold w', handle, deliverable. rewrite Hs.
    replace (Nat.ltb i (List.length (processes (st w)))) with true
      by (symmetry; now apply Nat.ltb_lt).
    destruct (dispatch (ChildData i data) w) as [[a|[|]] x];
      cbn [fst snd] in *; congruence. }
  rewrite E. split; [exact Hw'|]. split; [exact Hse|].
  rewrite Hhs. replace (S i) with (Z.to_nat (Z.of_nat i + 1)) by lia.
  exact (index_updateAt_same _ _
           (fun h => trackHistory sessionRetention h (Chunk data)) _ Hh).
Qed.

Lemma run_childData (i : nat) (chunks : list Buffer) :
  forall (w : world) (h : list line),
  wellFormed (st w) -> session w = Running ->
  index (histories (st w)) (Z.of_nat i + 1) = Some h ->
  let w' := run w (map (ChildData i) chunks) in
  wellFormed (st w') /\ session w' = Running /\
  index (histories (st w')) (Z.of_nat i + 1) =
    Some (fold_left (trackHistory sessionRetention) (map Chunk chunks) h).
Proof.
  induction chunks as [|d chunks IH]; intros w h Hw Hs Hh.
  - cbn. auto.
  - destruct (handle_childData w i d h Hw Hs Hh) as (Hw1 & Hs1 & Hh1).
    exact (IH _ _ Hw1 Hs1 Hh1).
Qed.

(** C4, as the code has it. In a running session, output chunks of a child
    that arrive one after the other leave the history of its tab with at
    most 1000 entries: the last 1000 of what it held before followed by
    the chunks, in their order, the oldest entries dropped from the front
    (from an empty history: the last 1000 chunks). This holds whatever the
    history held before, also more than 1000 entries. *)
Theorem child_history_after_output (w : world) (i : nat) (h : list line)
        (chunks : list Buffer) :
  reachable w ->
  session w = Running ->
  index (histories (st w)) (Z.of_nat i + 1) = Some h ->
  chunks <> [] ->
  let w' := run w (map (ChildData i) chunks) in
  let all := h ++ map Chunk chunks in
  session w' = Running /\
  index (histories (st w')) (Z.of_nat i + 1) =
    Some (skipn (List.length all - 1000) all) /\
  len (skipn (List.length all - 1000) all) <= sessionRetention.
Proof.
  intros Hr Hs Hh Hne w' all.
  destruct (reachable_wellFormed w Hr) as [Hw _].
  destruct (run_childData i chunks w h Hw Hs Hh) as (_ & Hs' & Hh').
  split; [exact Hs'|]. split.
  - unfold w'. rewrite Hh'. f_equal.
    apply (trackHistory_fold_any sessionRetention); [discriminate|].
    destruct chunks; [congruence|discriminate].
  - unfold len. rewrite length_skipn.
    change sessionRetention with 1000. lia.
Qed.

Lemma child_history_after_output_witness :
  reachable (viewProcessesInTabs 1) /\
  session (viewProcessesInTabs 1) = Running /\
  index (histories (st (viewProcessesInTabs 1))) (Z.of_nat 0 + 1) = Some [] /\
  [[x61]; [x62]] <> [] /\
  index (histories
           (st (run (viewProcessesInTabs 1)
                    (map (ChildData 0) [[x61]; [x62]]))))
        (Z.of_nat 0 + 1) =
    Some [Chunk [x61]; Chunk [x62]].
Proof.
  assert (Hr : reachable (viewProcessesInTabs 1)) by apply reachable_start.
  assert (Hs : session (viewProcessesInTabs 1) = Running) by reflexivity.
  assert (Hh : index (histories (st (viewProcessesInTabs 1)))
                     (Z.of_nat 0 + 1) = Some []) by reflexivity.
  assert (Hne : [[x61]; [x62]] <> (@nil Buffer)) by discriminate.
  split; [exact Hr|]. split; [exact Hs|]. split; [exact Hh|].
  split; [exact Hne|].
  exact (proj1 (proj2 (child_history_after_output (viewProcessesInTabs 1) 0
                         [] [[x61]; [x62]] Hr Hs Hh Hne))).
Defined.

(** C4 as the specification words it fails in a session: with 1000 chunks
    in the history of the child, the interrupt key on its tab pushes its
    two lines without a cut, and the history holds 1002 entries. *)
Lemma child_history_exceeds_retention :
  reachable fullAndInterrupted /\ ~ historyBoundAsStated fullAndInterrupted.
Proof.
  split.
  - unfold fullAndInterrupted. apply reachable_run, reachable_start.
  - intros H.
    assert (E : option_map len (index (histories (st fullAndInterrupted)) 1)
                = Some 1002) by (vm_compute; reflexivity).
    destruct (index (histories (st fullAndInterrupted)) 1) as [h|] eqn:Hh;
      [|discriminate].
    specialize (H 0%nat h Hh). cbn [option_map] in E.
    assert (E' : len h = 1002) by congruence.
    rewrite E' in H. vm_compute in H. congruence.
Qed.

(** A chunk that decodes to a scroll is none of the keys. *)
Lemma scroll_is_no_key (data : Buffer) (d : Z) :
  isScrollEvent data = Some d ->
  equals data keys.SIGINT = false /\
  equals data keys.left = false /\
  equals data keys.right = false.
Proof.
  intros E.
  repeat split;
    match goal with
    | |- equals data ?k = false =>
        destruct (equals data k) eqn:Hk; [|reflexivity];
        apply equals_eq in Hk; subst data; vm_compute in E; discriminate
    end.
Qed.

(** C6, as the code has it. In a running session, a chunk that decodes to
    a scroll in direction [d] leaves the state as it was but for the
    cursor: one less, floored at 0, for [d = -1] (scroll up); one more,
    capped at [max 0 (len h - lines)], for [d = 1] (scroll down). The
    arrow handler, which receives the chunk first, draws one frame with the
    cursor as it was; the scroll handler then draws a second frame, with the
    new cursor, if and only if the cursor changed. *)
Theorem scroll_chunk_in_session (w : world) (data : Buffer) (d : Z)
        (h : list line) :
  session w = Running ->
  index (histories (st w)) (tab (st w)) = Some h ->
  isScrollEvent data = Some d ->
  let w' := handle w (StdinData data) in
  let c' := if d =? -1 then Z.max 0 (cursor (st w) - 1)
            else Z.min (Z.max 0 (len h - lines (st w))) (cursor (st w) + 1) in
  (d = -1 \/ d = 1) /\
  session w' = Running /\
  st w' = mkState (tab (st w)) (lines (st w)) (processes (st w))
                  (histories (st w)) c' /\
  exists v0 v1,
    view (st w) = Some v0 /\ view (st w') = Some v1 /\
    stdout w' =
    stdout w ++ frame v0 ++ (if c' =? cursor (st w) then [] else frame v1).
Proof.
  intros Hs Hh E w' c'.
  destruct (scroll_is_no_key data d E) as (Hi & Hl & Hr).
  destruct (view_defined (st w) h Hh) as [v0 Hv0].
  set (w0 := withStdout (stdout w ++ frame v0) w).
  destruct (scrollHandler_direction w0 data d h Hh E) as (v1 & Hv1 & R).
  cbv zeta in Hv1, R. unfold maxCursorOf in Hv1, R.
  cbn [st withStdout] in Hv1, R. fold c' in Hv1, R.
  set (s' := mkState (tab (st w)) (lines (st w)) (processes (st w))
                     (histories (st w)) c') in *.
  assert (D : dispatch (StdinData data) w =
              (Ret tt,
               if c' =? cursor (st w) then withState s' w0
               else withStdout (stdout w0 ++ frame v1) (withState s' w0))).
  { unfold dispatch. unfold bind at 1.
    rewrite terminateHandler_other_key by exact Hi. cbv beta iota.
    unfold bind at 1. rewrite arrowHandler_other_key by assumption.
    rewrite (render_ok w v0 Hv0). cbv beta iota. fold w0.
    unfold bind at 1. rewrite R. cbv beta iota.
    unfold bind. cbv beta iota. now rewrite restartHandlers_idle. }
  assert (E' : w' = snd (dispatch (StdinData data) w)).
  { unfold w', handle, deliverable. rewrite Hs, D. reflexivity. }
  split; [exact (isScrollEvent_direction data d E)|].
  rewrite E', D. cbn [snd].
  destruct (c' =? cursor (st w));
    cbn [st session stdout withState withStdout].
  - split; [exact Hs|]. split; [reflexivity|].
    exists v0, v1. split; [exact Hv0|]. split; [exact Hv1|].
    unfold w0. cbn [stdout withStdout]. now rewrite app_nil_r.
  - split; [exact Hs|]. split; [reflexivity|].
    exists v0, v1. split; [exact Hv0|]. split; [exact Hv1|].
    unfold w0. cbn [stdout withStdout]. now rewrite app_assoc.
Qed.

Lemma scroll_chunk_in_session_witness :
  session watchingChild = Running /\
  index (histories (st watchingChild)) (tab (st watchingChild)) =
    Some (repeat (Chunk [x61]) 30) /\
  isScrollEvent (wheel x61) = Some (-1) /\
  st (handle watchingChild (StdinData (wheel x61))) =
  mkState (tab (st watchingChild)) (lines (st watchingChild))
          (processes (st watchingChild)) (histories (st watchingChild))
          (Z.max 0 (cursor (st watchingChild) - 1)).
Proof.
  assert (Hs : session watchingChild = Running) by (vm_compute; reflexivity).
  assert (Hh : index (histories (st watchingChild)) (tab (st watchingChild))
               = Some (repeat (Chunk [x61]) 30)) by (vm_compute; reflexivity).
  assert (E : isScrollEvent (wheel x61) = Some (-1)) by reflexivity.
  split; [exact Hs|]. split; [exact Hh|]. split; [exact E|].
  exact (proj1 (proj2 (proj2
           (scroll_chunk_in_session watchingChild (wheel x61) (-1) _
              Hs Hh E)))).
Defined.

(** C6 as the specification words it fails at the start of a session: the
    wheel asks to scroll up at cursor 0, the cursor stays 0, and a frame is
    drawn all the same. *)
Lemma scroll_chunk_redraws_without_change :
  ~ scrollRedrawAsStated (viewProcessesInTabs 1) (wheel x61).
Proof.
  unfold scrollRedrawAsStated. intros [H _].
  apply H; [|vm_compute; reflexivity].
  intros E.
  apply (f_equal (@List.length term_op)) in E. vm_compute in E. discriminate.
Qed.
